(** * native-camera2-jni: the preview bridge and its static handle set

    A shallow embedding of [app/src/main/jni/native-camera2-jni.cpp].

    The translation unit owns seven static pointers and two static callback
    structs, and exports two JNI entry points, [startPreview] and
    [stopPreview].  Everything else is a call into the platform (the NDK
    camera and native-window libraries).  The platform is not part of the
    program: each call is recorded in a trace together with the arguments the
    code passes, and what the platform answers (a status, a value stored
    through an out-parameter) is an input of the model, universally
    quantified in the theorems. *)

From Stdlib Require Import ZArith NArith List String Bool Lia.
Import ListNotations.

Local Open Scope Z_scope.

(** ** Platform data *)

(** Every handle is an opaque pointer; the null pointer is address zero. *)
Definition ptr := N.
Definition NULL : ptr := 0%N.

Definition is_null (p : ptr) : bool := N.eqb p NULL.

(** [camera_status_t] of <camera/NdkCameraError.h>: an int, [ACAMERA_OK]
    being zero and every error a non-zero code. *)
Definition camera_status_t := Z.
Definition ACAMERA_OK : camera_status_t := 0.

(** [ACameraDevice_request_template] of <camera/NdkCameraDevice.h>. *)
Inductive ACameraDevice_request_template :=
| TEMPLATE_PREVIEW
| TEMPLATE_STILL_CAPTURE
| TEMPLATE_RECORD
| TEMPLATE_VIDEO_SNAPSHOT
| TEMPLATE_ZERO_SHUTTER_LAG
| TEMPLATE_MANUAL.

(** [ACameraIdList]: the identifiers the manager enumerated.  The struct has
    a count and an array of that many C strings; the array is the list and
    [numCameras] its length, so that [cameraIds[0]] is in range exactly when
    the guard [numCameras < 1] of the source lets control through. *)
Definition ACameraIdList := list string.
Definition numCameras (l : ACameraIdList) : Z := Z.of_nat (List.length l).
Definition cameraIds_0 (l : ACameraIdList) : string := List.hd EmptyString l.

(** The four static callback functions of the source; all of them only log. *)
Inductive callback :=
| camera_device_on_disconnected
| camera_device_on_error
| capture_session_on_ready
| capture_session_on_active.

(** The fields of [ACameraDevice_StateCallbacks] and of
    [ACameraCaptureSession_stateCallbacks]; [None] is a null function
    pointer, which is what static storage starts with. *)
Record ACameraDevice_StateCallbacks := {
  onDisconnected : option callback;
  onError : option callback
}.

Record ACameraCaptureSession_stateCallbacks := {
  onClosed : option callback;
  onReady : option callback;
  onActive : option callback
}.

(** ** The static variables *)

(** The seven static handle variables, as locations. *)
Inductive slot :=
| theNativeWindow
| cameraDevice
| captureRequest
| cameraOutputTarget
| sessionOutput
| captureSessionOutputContainer
| captureSession.

Definition slot_eqb (x y : slot) : bool :=
  match x, y with
  | theNativeWindow, theNativeWindow
  | cameraDevice, cameraDevice
  | captureRequest, captureRequest
  | cameraOutputTarget, cameraOutputTarget
  | sessionOutput, sessionOutput
  | captureSessionOutputContainer, captureSessionOutputContainer
  | captureSession, captureSession => true
  | _, _ => false
  end.

(** The contents of static storage. *)
Record statics := {
  val_theNativeWindow : ptr;
  val_cameraDevice : ptr;
  val_captureRequest : ptr;
  val_cameraOutputTarget : ptr;
  val_sessionOutput : ptr;
  val_captureSessionOutputContainer : ptr;
  val_captureSession : ptr;
  deviceStateCallbacks : ACameraDevice_StateCallbacks;
  captureSessionStateCallbacks : ACameraCaptureSession_stateCallbacks
}.

(** Static storage is zero-initialised. *)
Definition initial_statics : statics := {|
  val_theNativeWindow := NULL;
  val_cameraDevice := NULL;
  val_captureRequest := NULL;
  val_cameraOutputTarget := NULL;
  val_sessionOutput := NULL;
  val_captureSessionOutputContainer := NULL;
  val_captureSession := NULL;
  deviceStateCallbacks := {| onDisconnected := None; onError := None |};
  captureSessionStateCallbacks :=
    {| onClosed := None; onReady := None; onActive := None |}
|}.

Definition get (x : slot) (g : statics) : ptr :=
  match x with
  | theNativeWindow => val_theNativeWindow g
  | cameraDevice => val_cameraDevice g
  | captureRequest => val_captureRequest g
  | cameraOutputTarget => val_cameraOutputTarget g
  | sessionOutput => val_sessionOutput g
  | captureSessionOutputContainer => val_captureSessionOutputContainer g
  | captureSession => val_captureSession g
  end.

Definition set (x : slot) (v : ptr) (g : statics) : statics :=
  let pick y := if slot_eqb x y then v else get y g in
  {| val_theNativeWindow := pick theNativeWindow;
     val_cameraDevice := pick cameraDevice;
     val_captureRequest := pick captureRequest;
     val_cameraOutputTarget := pick cameraOutputTarget;
     val_sessionOutput := pick sessionOutput;
     val_captureSessionOutputContainer := pick captureSessionOutputContainer;
     val_captureSession := pick captureSession;
     deviceStateCallbacks := deviceStateCallbacks g;
     captureSessionStateCallbacks := captureSessionStateCallbacks g |}.

Definition set_deviceStateCallbacks
    (c : ACameraDevice_StateCallbacks) (g : statics) : statics :=
  {| val_theNativeWindow := val_theNativeWindow g;
     val_cameraDevice := val_cameraDevice g;
     val_captureRequest := val_captureRequest g;
     val_cameraOutputTarget := val_cameraOutputTarget g;
     val_sessionOutput := val_sessionOutput g;
     val_captureSessionOutputContainer := val_captureSessionOutputContainer g;
     val_captureSession := val_captureSession g;
     deviceStateCallbacks := c;
     captureSessionStateCallbacks := captureSessionStateCallbacks g |}.

Definition set_captureSessionStateCallbacks
    (c : ACameraCaptureSession_stateCallbacks) (g : statics) : statics :=
  {| val_theNativeWindow := val_theNativeWindow g;
     val_cameraDevice := val_cameraDevice g;
     val_captureRequest := val_captureRequest g;
     val_cameraOutputTarget := val_cameraOutputTarget g;
     val_sessionOutput := val_sessionOutput g;
     val_captureSessionOutputContainer := val_captureSessionOutputContainer g;
     val_captureSession := val_captureSession g;
     deviceStateCallbacks := deviceStateCallbacks g;
     captureSessionStateCallbacks := c |}.

(** ** Observable events *)

(** The platform functions the source calls, each with the arguments the
    source passes.  Out-parameters are not arguments here: what the platform
    stores through them shows as a [Store] event. *)
Inductive call :=
| ANativeWindow_fromSurface (env surface : ptr)
| ANativeWindow_release (window : ptr)
| ACameraManager_create
| ACameraManager_getCameraIdList (manager : ptr)
| ACameraManager_getCameraCharacteristics (manager : ptr) (cameraId : string)
| ACameraManager_openCamera
    (manager : ptr) (cameraId : string) (cb : ACameraDevice_StateCallbacks)
| ACameraManager_deleteCameraIdList (l : ACameraIdList)
| ACameraManager_delete (manager : ptr)
| ACameraMetadata_free (metadata : ptr)
| ACameraDevice_createCaptureRequest
    (device : ptr) (templateId : ACameraDevice_request_template)
| ACameraDevice_createCaptureSession
    (device outputs : ptr) (cb : ACameraCaptureSession_stateCallbacks)
| ACameraDevice_close (device : ptr)
| ACaptureRequest_addTarget (request target : ptr)
| ACaptureRequest_free (request : ptr)
| ACameraOutputTarget_create (window : ptr)
| ACameraOutputTarget_free (target : ptr)
| ACaptureSessionOutput_create (window : ptr)
| ACaptureSessionOutput_free (output : ptr)
| ACaptureSessionOutputContainer_create
| ACaptureSessionOutputContainer_add (container output : ptr)
| ACaptureSessionOutputContainer_free (container : ptr)
| ACameraCaptureSession_setRepeatingRequest
    (session callbacks : ptr) (numRequests : Z) (requests : list ptr)
    (captureSequenceId : ptr).

(** Log priorities of <android/log.h>. *)
Inductive severity := ANDROID_LOG_ERROR | ANDROID_LOG_INFO.

Inductive log_arg :=
| ArgInt (z : Z)
| ArgStr (s : string)
| ArgPtr (p : ptr).

(** An event is a platform call, a log line, or a write to one of the static
    handle variables (by an assignment of the source, or by the platform
    through the address the source passed). *)
Inductive event :=
| Call (c : call)
| Log (sev : severity) (fmt : string) (args : list log_arg)
| Store (x : slot) (v : ptr).

(** A trace entry pairs the event with the statics as they were when it
    happened. *)
Definition entry := (statics * event)%type.
Definition trace := list entry.

(** ** The monad of the translation unit: static state and a trace *)

Definition M (A : Type) : Type := statics -> A * statics * trace.

Definition ret {A} (a : A) : M A := fun g => (a, g, []).

Definition bind {A B} (m : M A) (k : A -> M B) : M B :=
  fun g =>
    let '(a, g1, t1) := m g in
    let '(b, g2, t2) := k a g1 in
    (b, g2, t1 ++ t2).

Declare Scope camera_scope.
Delimit Scope camera_scope with camera.
Notation "x <- m ;; k" := (bind m (fun x => k))
  (at level 61, m at next level, right associativity) : camera_scope.
Notation "m ;; k" := (bind m (fun _ => k))
  (at level 61, right associativity) : camera_scope.
Local Open Scope camera_scope.

Definition emit (e : event) : M unit := fun g => (tt, g, [(g, e)]).

(** Reading and writing a static handle variable. *)
Definition load (x : slot) : M ptr := fun g => (get x g, g, []).
Definition store (x : slot) (v : ptr) : M unit :=
  fun g => (tt, set x v g, [(g, Store x v)]).

Definition modify (f : statics -> statics) : M unit := fun g => (tt, f g, []).
Definition read {A} (f : statics -> A) : M A := fun g => (f g, g, []).

Definition platform (c : call) : M unit := emit (Call c).

(** Modelled from the spec: the macros [LOGE] and [LOGI] of
    [messages-internal.h], which is not among the sources; the spec has
    failures logged at error severity and the callbacks log only.  The format
    string is kept as the source spells it, escapes included. *)
Definition LOGE (fmt : string) (args : list log_arg) : M unit :=
  emit (Log ANDROID_LOG_ERROR fmt args).
Definition LOGI (fmt : string) (args : list log_arg) : M unit :=
  emit (Log ANDROID_LOG_INFO fmt args).

Definition when (b : bool) (m : M unit) : M unit := if b then m else ret tt.

(** What a platform function does with an out-parameter: [Some p] stores
    [p] through it, [None] leaves the pointee as it was. *)
Definition out := option ptr.

Definition store_out (x : slot) (o : out) : M unit :=
  match o with
  | Some p => store x p
  | None => ret tt
  end.

Definition assign_out (o : out) (old : ptr) : ptr :=
  match o with
  | Some p => p
  | None => old
  end.

Definition final {A} (r : A * statics * trace) : statics := snd (fst r).
Definition events {A} (r : A * statics * trace) : trace := snd r.

(** ** Teardown *)

(** [closeCamera]: [close_status] is what [ACameraDevice_close] answers, if
    it is called. *)
Definition closeCamera (close_status : camera_status_t) : M unit :=
  req <- load captureRequest ;;
  when (negb (is_null req))
    (platform (ACaptureRequest_free req) ;;
     store captureRequest NULL) ;;
  tgt <- load cameraOutputTarget ;;
  when (negb (is_null tgt))
    (platform (ACameraOutputTarget_free tgt) ;;
     store cameraOutputTarget NULL) ;;
  dev <- load cameraDevice ;;
  when (negb (is_null dev))
    (platform (ACameraDevice_close dev) ;;
     let camera_status := close_status in
     when (negb (camera_status =? ACAMERA_OK))
       (LOGE "Failed to close CameraDevice.\n" []) ;;
     store cameraDevice NULL) ;;
  so <- load sessionOutput ;;
  when (negb (is_null so))
    (platform (ACaptureSessionOutput_free so) ;;
     store sessionOutput NULL) ;;
  cont <- load captureSessionOutputContainer ;;
  when (negb (is_null cont))
    (platform (ACaptureSessionOutputContainer_free cont) ;;
     store captureSessionOutputContainer NULL) ;;
  LOGI "Close Camera\n" [].

(** [Java_org_freedesktop_nativecamera2_NativeCamera2_stopPreview]. *)
Definition stopPreview (close_status : camera_status_t) (env clazz : ptr)
  : M unit :=
  closeCamera close_status ;;
  win <- load theNativeWindow ;;
  when (negb (is_null win))
    (platform (ANativeWindow_release win) ;;
     store theNativeWindow NULL).

(** ** Opening and starting *)

(** What the platform answers during one [startPreview]: the value a
    function returns where the source reads it, and what it stores through
    its out-parameter.  The status codes [startPreview] itself discards are
    not recorded. *)
Record answers := {
  ans_fromSurface : ptr;
  ans_manager_create : ptr;
  ans_getCameraIdList : camera_status_t * ACameraIdList;
  ans_getCameraCharacteristics : camera_status_t * out;
  ans_openCamera : camera_status_t * out;
  ans_createCaptureRequest : camera_status_t * out;
  ans_outputTarget_create : out;
  ans_sessionOutput_create : out;
  ans_container_create : out;
  ans_createCaptureSession : out
}.

Definition failed (st : camera_status_t) : bool := negb (st =? ACAMERA_OK).

(** [openCamera].  The two early [return]s are the first two branches; the
    manager and the id list are deleted on the last path only. *)
Definition openCamera (pf : answers)
    (templateId : ACameraDevice_request_template) : M unit :=
  let cameraMetadata : ptr := NULL in
  platform ACameraManager_create ;;
  let cameraManager := ans_manager_create pf in
  platform (ACameraManager_getCameraIdList cameraManager) ;;
  let '(camera_status, cameraIdList) := ans_getCameraIdList pf in
  if failed camera_status then
    LOGE "Failed to get camera id list (reason: %d)\n" [ArgInt camera_status]
  else if numCameras cameraIdList <? 1 then
    LOGE "No camera device detected.\n" []
  else
    let selectedCameraId := cameraIds_0 cameraIdList in
    LOGI "Trying to open Camera2 (id: %s, num of camera : %d)\n"
      [ArgStr selectedCameraId; ArgInt (numCameras cameraIdList)] ;;
    platform
      (ACameraManager_getCameraCharacteristics cameraManager selectedCameraId) ;;
    let '(camera_status, md) := ans_getCameraCharacteristics pf in
    let cameraMetadata := assign_out md cameraMetadata in
    when (failed camera_status)
      (LOGE "Failed to get camera meta data of ID:%s\n"
         [ArgStr selectedCameraId]) ;;
    modify (fun g => set_deviceStateCallbacks
      {| onDisconnected := Some camera_device_on_disconnected;
         onError := onError (deviceStateCallbacks g) |} g) ;;
    modify (fun g => set_deviceStateCallbacks
      {| onDisconnected := onDisconnected (deviceStateCallbacks g);
         onError := Some camera_device_on_error |} g) ;;
    cbs <- read deviceStateCallbacks ;;
    platform (ACameraManager_openCamera cameraManager selectedCameraId cbs) ;;
    let '(camera_status, dev_out) := ans_openCamera pf in
    store_out cameraDevice dev_out ;;
    when (failed camera_status)
      (LOGE "Failed to open camera device (id: %s)\n"
         [ArgStr selectedCameraId]) ;;
    dev <- load cameraDevice ;;
    platform (ACameraDevice_createCaptureRequest dev templateId) ;;
    let '(camera_status, req_out) := ans_createCaptureRequest pf in
    store_out captureRequest req_out ;;
    when (failed camera_status)
      (LOGE "Failed to create preview capture request (id: %s)\n"
         [ArgStr selectedCameraId]) ;;
    platform (ACameraMetadata_free cameraMetadata) ;;
    platform (ACameraManager_deleteCameraIdList cameraIdList) ;;
    platform (ACameraManager_delete cameraManager).

(** The part of [startPreview] after the surface line has been logged:
    output target, session output, container, session, repeating request. *)
Definition assemble (pf : answers) : M unit :=
  win <- load theNativeWindow ;;
  platform (ACameraOutputTarget_create win) ;;
  store_out cameraOutputTarget (ans_outputTarget_create pf) ;;
  req <- load captureRequest ;;
  tgt <- load cameraOutputTarget ;;
  platform (ACaptureRequest_addTarget req tgt) ;;
  win <- load theNativeWindow ;;
  platform (ACaptureSessionOutput_create win) ;;
  store_out sessionOutput (ans_sessionOutput_create pf) ;;
  platform ACaptureSessionOutputContainer_create ;;
  store_out captureSessionOutputContainer (ans_container_create pf) ;;
  cont <- load captureSessionOutputContainer ;;
  so <- load sessionOutput ;;
  platform (ACaptureSessionOutputContainer_add cont so) ;;
  modify (fun g => set_captureSessionStateCallbacks
    {| onClosed := onClosed (captureSessionStateCallbacks g);
       onReady := Some capture_session_on_ready;
       onActive := onActive (captureSessionStateCallbacks g) |} g) ;;
  modify (fun g => set_captureSessionStateCallbacks
    {| onClosed := onClosed (captureSessionStateCallbacks g);
       onReady := onReady (captureSessionStateCallbacks g);
       onActive := Some capture_session_on_active |} g) ;;
  dev <- load cameraDevice ;;
  cont <- load captureSessionOutputContainer ;;
  cbs <- read captureSessionStateCallbacks ;;
  platform (ACameraDevice_createCaptureSession dev cont cbs) ;;
  store_out captureSession (ans_createCaptureSession pf) ;;
  sess <- load captureSession ;;
  req <- load captureRequest ;;
  platform (ACameraCaptureSession_setRepeatingRequest sess NULL 1 [req] NULL).

(** [Java_org_freedesktop_nativecamera2_NativeCamera2_startPreview]. *)
Definition startPreview (pf : answers) (env clazz surface : ptr) : M unit :=
  platform (ANativeWindow_fromSurface env surface) ;;
  store theNativeWindow (ans_fromSurface pf) ;;
  openCamera pf TEMPLATE_PREVIEW ;;
  LOGI "Surface is prepared in %p.\n" [ArgPtr surface] ;;
  assemble pf.

(** ** Sequences of entry-point calls *)

(** One call of the managed host into the library, with what the platform
    answers during it. *)
Inductive jni_call :=
| Start (pf : answers) (env clazz surface : ptr)
| Stop (close_status : camera_status_t) (env clazz : ptr).

Definition run_call (c : jni_call) : M unit :=
  match c with
  | Start pf env clazz surface => startPreview pf env clazz surface
  | Stop st env clazz => stopPreview st env clazz
  end.

Fixpoint run (cs : list jni_call) : M unit :=
  match cs with
  | [] => ret tt
  | c :: cs' => run_call c ;; run cs'
  end.

(** ** Reading traces *)

Definition calls_of (t : trace) : list call :=
  flat_map (fun e => match snd e with Call c => [c] | _ => [] end) t.

Definition errors_of (t : trace) : list string :=
  flat_map (fun e => match snd e with
                     | Log ANDROID_LOG_ERROR fmt _ => [fmt]
                     | _ => []
                     end) t.

(** The static variable a release function is applied to, and the handle it
    is given. *)
Definition released (c : call) : option (slot * ptr) :=
  match c with
  | ACaptureRequest_free p => Some (captureRequest, p)
  | ACameraOutputTarget_free p => Some (cameraOutputTarget, p)
  | ACameraDevice_close p => Some (cameraDevice, p)
  | ACaptureSessionOutput_free p => Some (sessionOutput, p)
  | ACaptureSessionOutputContainer_free p =>
      Some (captureSessionOutputContainer, p)
  | ANativeWindow_release p => Some (theNativeWindow, p)
  | _ => None
  end.

Definition is_release (c : call) : bool :=
  match released c with Some _ => true | None => false end.

Definition releases_of (t : trace) : list call :=
  filter is_release (calls_of t).

(** ** Two concrete platforms *)

(** One camera, id "0", and every call succeeds. *)
Definition camera_0_ok : answers := {|
  ans_fromSurface := 11%N;
  ans_manager_create := 12%N;
  ans_getCameraIdList := (ACAMERA_OK, ["0"%string]);
  ans_getCameraCharacteristics := (ACAMERA_OK, Some 13%N);
  ans_openCamera := (ACAMERA_OK, Some 14%N);
  ans_createCaptureRequest := (ACAMERA_OK, Some 15%N);
  ans_outputTarget_create := Some 16%N;
  ans_sessionOutput_create := Some 17%N;
  ans_container_create := Some 18%N;
  ans_createCaptureSession := Some 19%N
|}.

(** Enumeration succeeds with an empty list; the window and the output
    objects are still created, the session (asked of a null device) is not. *)
Definition no_camera : answers := {|
  ans_fromSurface := 11%N;
  ans_manager_create := 12%N;
  ans_getCameraIdList := (ACAMERA_OK, []);
  ans_getCameraCharacteristics := (ACAMERA_OK, None);
  ans_openCamera := (ACAMERA_OK, None);
  ans_createCaptureRequest := (ACAMERA_OK, None);
  ans_outputTarget_create := Some 16%N;
  ans_sessionOutput_create := Some 17%N;
  ans_container_create := Some 18%N;
  ans_createCaptureSession := None
|}.

(** ** What the claims speak of *)

(** A release is guarded when the handle it is given is the content of its
    static variable at that moment and that content is not null. *)
Definition guarded (e : entry) : Prop :=
  match snd e with
  | Call c =>
      match released c with
      | Some (x, p) => p = get x (fst e) /\ p <> NULL
      | None => True
      end
  | _ => True
  end.

(** ** References between handles *)

(** A handle together with the static variable that keeps it. *)
Definition held_handle := (slot * ptr)%type.

(** [(a, b)]: the handle [a] refers to the handle [b]. *)
Definition link := (held_handle * held_handle)%type.

Definition referrer (l : link) : held_handle := fst l.
Definition referent (l : link) : held_handle := snd l.

(** What the platform stored right after a call, if it stored anything: the
    handle a creating call returns through its out-parameter. *)
Definition created_after (t : trace) : option held_handle :=
  match t with
  | (_, Store x v) :: _ => Some (x, v)
  | _ => None
  end.

(** The links a call of the source makes between handles.  A call that is
    given two handles ties the first to the second: a request to the target
    added to it, a container to the output added to it, a session to the
    request it repeats.  A call that creates a handle from others ties the
    created one to those it was created from: a request to its device, an
    output target and a session output to their window, a session to its
    device and its container.  These are the calls of source lines 118, 184,
    187, 190, 194, 200 and 205.  The static variable of each handle is the
    one of its type. *)
Definition links_of_call (c : call) (created : option held_handle)
  : list link :=
  match c with
  | ACaptureRequest_addTarget r t =>
      [((captureRequest, r), (cameraOutputTarget, t))]
  | ACaptureSessionOutputContainer_add k o =>
      [((captureSessionOutputContainer, k), (sessionOutput, o))]
  | ACameraCaptureSession_setRepeatingRequest s _ _ rs _ =>
      map (fun r => ((captureSession, s), (captureRequest, r))) rs
  | ACameraDevice_createCaptureRequest d _ =>
      match created with
      | Some (captureRequest, r) => [((captureRequest, r), (cameraDevice, d))]
      | _ => []
      end
  | ACameraOutputTarget_create w =>
      match created with
      | Some (cameraOutputTarget, t) =>
          [((cameraOutputTarget, t), (theNativeWindow, w))]
      | _ => []
      end
  | ACaptureSessionOutput_create w =>
      match created with
      | Some (sessionOutput, o) => [((sessionOutput, o), (theNativeWindow, w))]
      | _ => []
      end
  | ACameraDevice_createCaptureSession d k _ =>
      match created with
      | Some (captureSession, s) =>
          [((captureSession, s), (cameraDevice, d));
           ((captureSession, s), (captureSessionOutputContainer, k))]
      | _ => []
      end
  | _ => []
  end.

(** The statics [g] still hold the handle [h]: it is not null and it is the
    content of its variable. *)
Definition holds (g : statics) (h : held_handle) : bool :=
  negb (is_null (snd h)) && N.eqb (get (fst h) g) (snd h).

Definition same_handle (a b : held_handle) : bool :=
  slot_eqb (fst a) (fst b) && N.eqb (snd a) (snd b).

(** [freed_while_referenced ls t]: the links, among [ls] and those the calls
    of [t] have made by then, whose referent is given to a release function
    while the statics still hold the referrer. *)
Fixpoint freed_while_referenced (ls : list link) (t : trace) : list link :=
  match t with
  | [] => []
  | (g, Call c) :: t' =>
      match released c with
      | Some h =>
          filter (fun l => holds g (referrer l) && same_handle (referent l) h)
            ls
      | None => []
      end
      ++ freed_while_referenced (ls ++ links_of_call c (created_after t')) t'
  | _ :: t' => freed_while_referenced ls t'
  end.

(** The referrer of a link is kept in the container variable or in the
    session variable. *)
Definition from_container_or_session (l : link) : Prop :=
  fst (referrer l) = captureSessionOutputContainer \/
  fst (referrer l) = captureSession.

(** The pairs of variables [links_of_call] ties, referrer first. *)
Definition link_kind (y x : slot) : bool :=
  match y, x with
  | captureRequest, cameraOutputTarget
  | captureRequest, cameraDevice
  | cameraOutputTarget, theNativeWindow
  | sessionOutput, theNativeWindow
  | captureSessionOutputContainer, sessionOutput
  | captureSession, cameraDevice
  | captureSession, captureSessionOutputContainer
  | captureSession, captureRequest => true
  | _, _ => false
  end.

Definition well_kinded (l : link) : Prop :=
  link_kind (fst (referrer l)) (fst (referent l)) = true.

(** At a release, every variable that can refer to the released one is null,
    the container and the session apart. *)
Definition referrers_gone (e : entry) : Prop :=
  match snd e with
  | Call c =>
      match released c with
      | Some (x, _) =>
          forall y, link_kind y x = true ->
            y = captureSessionOutputContainer \/ y = captureSession \/
            get y (fst e) = NULL
      | None => True
      end
  | _ => True
  end.

(** The first write to a static variable after a point of the trace, with
    only log lines in between. *)
Fixpoint next_store (t : trace) : option (slot * ptr) :=
  match t with
  | (_, Store x v) :: _ => Some (x, v)
  | (_, Log _ _ _) :: t' => next_store t'
  | _ => None
  end.

(** Every release is followed, before any other platform call, by the
    assignment of null to its static variable. *)
Fixpoint nulled_after_release (t : trace) : Prop :=
  match t with
  | [] => True
  | (_, Call c) :: t' =>
      match released c with
      | Some (x, _) => next_store t' = Some (x, NULL)
      | None => True
      end /\ nulled_after_release t'
  | _ :: t' => nulled_after_release t'
  end.

(** What [stopPreview] may do: release one of the six variables it tears
    down, log, or assign null to one of those six. *)
Definition teardown_event (e : entry) : Prop :=
  match snd e with
  | Call c => exists x p, released c = Some (x, p) /\ x <> captureSession
  | Log _ _ _ => True
  | Store x v => x <> captureSession /\ v = NULL
  end.

(** [openCamera] leaves through one of its two early [return]s. *)
Definition early_return (pf : answers) : bool :=
  failed (fst (ans_getCameraIdList pf))
  || (numCameras (snd (ans_getCameraIdList pf)) <? 1).

(** The ways a step of the opening can fail, in source order. *)
Inductive opening_failure :=
| enumeration_failed
| no_camera_present
| characteristics_failed
| open_failed
| request_failed.

Definition opening_failures : list opening_failure :=
  [enumeration_failed; no_camera_present; characteristics_failed;
   open_failed; request_failed].

(** [occurs f pf]: with the answers [pf], [openCamera] runs into [f].  A
    call that is not reached cannot fail. *)
Definition occurs (f : opening_failure) (pf : answers) : bool :=
  match f with
  | enumeration_failed => failed (fst (ans_getCameraIdList pf))
  | no_camera_present =>
      negb (failed (fst (ans_getCameraIdList pf)))
      && (numCameras (snd (ans_getCameraIdList pf)) <? 1)
  | characteristics_failed =>
      negb (early_return pf) && failed (fst (ans_getCameraCharacteristics pf))
  | open_failed =>
      negb (early_return pf) && failed (fst (ans_openCamera pf))
  | request_failed =>
      negb (early_return pf) && failed (fst (ans_createCaptureRequest pf))
  end.

(** The error line of each failure. *)
Definition error_line (f : opening_failure) : string :=
  match f with
  | enumeration_failed => "Failed to get camera id list (reason: %d)\n"
  | no_camera_present => "No camera device detected.\n"
  | characteristics_failed => "Failed to get camera meta data of ID:%s\n"
  | open_failed => "Failed to open camera device (id: %s)\n"
  | request_failed => "Failed to create preview capture request (id: %s)\n"
  end.

(** The name of the platform function of a call. *)
Definition call_name (c : call) : string :=
  match c with
  | ANativeWindow_fromSurface _ _ => "ANativeWindow_fromSurface"
  | ANativeWindow_release _ => "ANativeWindow_release"
  | ACameraManager_create => "ACameraManager_create"
  | ACameraManager_getCameraIdList _ => "ACameraManager_getCameraIdList"
  | ACameraManager_getCameraCharacteristics _ _ =>
      "ACameraManager_getCameraCharacteristics"
  | ACameraManager_openCamera _ _ _ => "ACameraManager_openCamera"
  | ACameraManager_deleteCameraIdList _ => "ACameraManager_deleteCameraIdList"
  | ACameraManager_delete _ => "ACameraManager_delete"
  | ACameraMetadata_free _ => "ACameraMetadata_free"
  | ACameraDevice_createCaptureRequest _ _ =>
      "ACameraDevice_createCaptureRequest"
  | ACameraDevice_createCaptureSession _ _ _ =>
      "ACameraDevice_createCaptureSession"
  | ACameraDevice_close _ => "ACameraDevice_close"
  | ACaptureRequest_addTarget _ _ => "ACaptureRequest_addTarget"
  | ACaptureRequest_free _ => "ACaptureRequest_free"
  | ACameraOutputTarget_create _ => "ACameraOutputTarget_create"
  | ACameraOutputTarget_free _ => "ACameraOutputTarget_free"
  | ACaptureSessionOutput_create _ => "ACaptureSessionOutput_create"
  | ACaptureSessionOutput_free _ => "ACaptureSessionOutput_free"
  | ACaptureSessionOutputContainer_create =>
      "ACaptureSessionOutputContainer_create"
  | ACaptureSessionOutputContainer_add _ _ =>
      "ACaptureSessionOutputContainer_add"
  | ACaptureSessionOutputContainer_free _ =>
      "ACaptureSessionOutputContainer_free"
  | ACameraCaptureSession_setRepeatingRequest _ _ _ _ _ =>
      "ACameraCaptureSession_setRepeatingRequest"
  end.

(** The calls of [assemble], given the statics [g] it starts from: every
    handle argument is the content of its static variable at the call. *)
Definition assemble_calls (pf : answers) (g : statics) : list call :=
  let win := get theNativeWindow g in
  let req := get captureRequest g in
  let dev := get cameraDevice g in
  let tgt := assign_out (ans_outputTarget_create pf) (get cameraOutputTarget g) in
  let so := assign_out (ans_sessionOutput_create pf) (get sessionOutput g) in
  let cont := assign_out (ans_container_create pf)
                (get captureSessionOutputContainer g) in
  let sess := assign_out (ans_createCaptureSession pf) (get captureSession g) in
  [ACameraOutputTarget_create win;
   ACaptureRequest_addTarget req tgt;
   ACaptureSessionOutput_create win;
   ACaptureSessionOutputContainer_create;
   ACaptureSessionOutputContainer_add cont so;
   ACameraDevice_createCaptureSession dev cont
     {| onClosed := onClosed (captureSessionStateCallbacks g);
        onReady := Some capture_session_on_ready;
        onActive := Some capture_session_on_active |};
   ACameraCaptureSession_setRepeatingRequest sess NULL 1 [req] NULL].

(** The release applied to a handle when it is not null. *)
Definition release_if_held (f : ptr -> call) (p : ptr) : list call :=
  if is_null p then [] else [f p].

(** [leak_free rel t]: no write of [t] replaces a non-null content of a
    static variable unless that content was released before; [rel] lists
    the contents released so far and still in place. *)
Fixpoint leak_free (rel : list (slot * ptr)) (t : trace) : bool :=
  match t with
  | [] => true
  | (_, Call c) :: t' =>
      leak_free (match released c with
                 | Some xp => xp :: rel
                 | None => rel
                 end) t'
  | (g, Store x _) :: t' =>
      (is_null (get x g)
       || existsb (fun yp => slot_eqb x (fst yp) && N.eqb (get x g) (snd yp))
            rel)
      && leak_free (filter (fun yp => negb (slot_eqb x (fst yp))) rel) t'
  | (_, Log _ _ _) :: t' => leak_free rel t'
  end.

(** What a run may do to [captureSession]: never apply a release to it, and
    write to it only what the platform stored through the out-parameter of
    [ACameraDevice_createCaptureSession] in one of the starts of [cs]. *)
Definition session_untouched_by_code (cs : list jni_call) (e : entry) : Prop :=
  match snd e with
  | Call c => forall p, released c <> Some (captureSession, p)
  | Store captureSession v =>
      exists pf env clazz surface,
        In (Start pf env clazz surface) cs /\
        ans_createCaptureSession pf = Some v
  | _ => True
  end.

(** The same camera on a later start: the platform hands out new handles. *)
Definition camera_0_again : answers := {|
  ans_fromSurface := 21%N;
  ans_manager_create := 22%N;
  ans_getCameraIdList := (ACAMERA_OK, ["0"%string]);
  ans_getCameraCharacteristics := (ACAMERA_OK, Some 23%N);
  ans_openCamera := (ACAMERA_OK, Some 24%N);
  ans_createCaptureRequest := (ACAMERA_OK, Some 25%N);
  ans_outputTarget_create := Some 26%N;
  ans_sessionOutput_create := Some 27%N;
  ans_container_create := Some 28%N;
  ans_createCaptureSession := Some 29%N
|}.

(** One camera, but opening it fails and stores nothing. *)
Definition open_fails : answers := {|
  ans_fromSurface := 11%N;
  ans_manager_create := 12%N;
  ans_getCameraIdList := (ACAMERA_OK, ["0"%string]);
  ans_getCameraCharacteristics := (ACAMERA_OK, Some 13%N);
  ans_openCamera := (-10002, None);
  ans_createCaptureRequest := (-10001, None);
  ans_outputTarget_create := Some 16%N;
  ans_sessionOutput_create := Some 17%N;
  ans_container_create := Some 18%N;
  ans_createCaptureSession := None
|}.

(** The statics of a [startPreview] once the window is assigned, and once
    the opener is through. *)
Definition after_window (pf : answers) (g : statics) : statics :=
  set theNativeWindow (ans_fromSurface pf) g.

Definition after_open (pf : answers) (g : statics) : statics :=
  final (openCamera pf TEMPLATE_PREVIEW (after_window pf g)).

(** ** The callbacks *)

(** What a callback does: ask the platform for the id of the device it is
    given, or log.  None of the four reads or writes a static variable. *)
Inductive callback_event :=
| Query_ACameraDevice_getId (device : ptr)
| Logged (sev : severity) (fmt : string) (args : list log_arg).

(** The body of each callback.  [object] is the device of the two device
    callbacks and the session of the two session callbacks; [error] is the
    third argument of [camera_device_on_error] and is not passed to the
    others; [id_of] is what [ACameraDevice_getId] answers.  The arguments of
    the log call are evaluated before it. *)
Definition invoke (cb : callback) (id_of : ptr -> string)
    (context object : ptr) (error : Z) : list callback_event :=
  match cb with
  | camera_device_on_disconnected =>
      [Query_ACameraDevice_getId object;
       Logged ANDROID_LOG_INFO "Camera(id: %s) is diconnected.\n"
         [ArgStr (id_of object)]]
  | camera_device_on_error =>
      [Query_ACameraDevice_getId object;
       Logged ANDROID_LOG_ERROR "Error(code: %d) on Camera(id: %s).\n"
         [ArgInt error; ArgStr (id_of object)]]
  | capture_session_on_ready =>
      [Logged ANDROID_LOG_INFO "Session is ready.\n" []]
  | capture_session_on_active =>
      [Logged ANDROID_LOG_INFO "Session is activated.\n" []]
  end.

(** ** Further readings of a trace *)

Definition infos_of (t : trace) : list string :=
  flat_map (fun e => match snd e with
                     | Log ANDROID_LOG_INFO fmt _ => [fmt]
                     | _ => []
                     end) t.

(** The three calls by which [openCamera] gives back what it obtained for
    the duration of the opening. *)
Definition is_cleanup (c : call) : bool :=
  match c with
  | ACameraMetadata_free _
  | ACameraManager_deleteCameraIdList _
  | ACameraManager_delete _ => true
  | _ => false
  end.

(** The handles a call is given from the variables of the source: statics
    and locals.  The JNI references of [ANativeWindow_fromSurface] and the
    two literal nulls of [ACameraCaptureSession_setRepeatingRequest] are not
    among them. *)
Definition handle_args (c : call) : list ptr :=
  match c with
  | ANativeWindow_fromSurface _ _ => []
  | ANativeWindow_release w => [w]
  | ACameraManager_create => []
  | ACameraManager_getCameraIdList m => [m]
  | ACameraManager_getCameraCharacteristics m _ => [m]
  | ACameraManager_openCamera m _ _ => [m]
  | ACameraManager_deleteCameraIdList _ => []
  | ACameraManager_delete m => [m]
  | ACameraMetadata_free md => [md]
  | ACameraDevice_createCaptureRequest d _ => [d]
  | ACameraDevice_createCaptureSession d o _ => [d; o]
  | ACameraDevice_close d => [d]
  | ACaptureRequest_addTarget r t => [r; t]
  | ACaptureRequest_free r => [r]
  | ACameraOutputTarget_create w => [w]
  | ACameraOutputTarget_free t => [t]
  | ACaptureSessionOutput_create w => [w]
  | ACaptureSessionOutput_free o => [o]
  | ACaptureSessionOutputContainer_create => []
  | ACaptureSessionOutputContainer_add c o => [c; o]
  | ACaptureSessionOutputContainer_free c => [c]
  | ACameraCaptureSession_setRepeatingRequest s _ _ rs _ => s :: rs
  end.

(** An out-parameter answer that stores a non-null handle. *)
Definition stores_handle (o : out) : bool :=
  match o with
  | Some p => negb (is_null p)
  | None => false
  end.

(** Every platform call of a start succeeds and yields a non-null handle. *)
Definition all_succeed (pf : answers) : bool :=
  negb (is_null (ans_fromSurface pf))
  && negb (is_null (ans_manager_create pf))
  && negb (early_return pf)
  && stores_handle (snd (ans_getCameraCharacteristics pf))
  && stores_handle (snd (ans_openCamera pf))
  && stores_handle (snd (ans_createCaptureRequest pf))
  && stores_handle (ans_outputTarget_create pf)
  && stores_handle (ans_sessionOutput_create pf)
  && stores_handle (ans_container_create pf)
  && stores_handle (ans_createCaptureSession pf).

(** The writes of the opener go to the device and request variables. *)
Definition opener_write (e : entry) : Prop :=
  match snd e with
  | Store x _ => x = cameraDevice \/ x = captureRequest
  | _ => True
  end.

(** When the window is released, the five camera variables of the teardown
    are null. *)
Definition window_after_camera (e : entry) : Prop :=
  match snd e with
  | Call (ANativeWindow_release _) =>
      get captureRequest (fst e) = NULL /\
      get cameraOutputTarget (fst e) = NULL /\
      get cameraDevice (fst e) = NULL /\
      get sessionOutput (fst e) = NULL /\
      get captureSessionOutputContainer (fst e) = NULL
  | _ => True
  end.

(** A write that replaces no held handle, unless it is a write to
    [captureSession]. *)
Definition overwrites_at_most_session (e : entry) : Prop :=
  match snd e with
  | Store x _ => x = captureSession \/ get x (fst e) = NULL
  | _ => True
  end.

(** A callback field is either what it was or the logging function the
    source assigns to it. *)
Definition set_or_kept (now before : option callback) (cb : callback) : Prop :=
  now = before \/ now = Some cb.

(** ** Proof tactics *)

Create Rewrite HintDb camera_guard.

Ltac by_held_handles g :=
  destruct g as [win dev req tgt so cont sess dcb scb];
  destruct win, dev, req, tgt, so, cont.

Ltac by_status st := destruct st.

Ltac by_answers pf :=
  destruct pf as [w mgr [st0 ids] [st1 md] [st2 dv] [st3 rq] tg so ct ss].

Ltac open_cases st0 ids :=
  unfold openCamera, occurs, early_return;
  cbn [ans_manager_create ans_getCameraIdList ans_getCameraCharacteristics
       ans_openCamera ans_createCaptureRequest fst snd];
  autorewrite with camera_guard;
  destruct st0; [destruct ids as [|? ?] | |].

Ltac open_subcases st1 md st2 dv st3 rq :=
  destruct st1, md, st2, dv, st3, rq.

(** ** Basic facts on the monad *)

Lemma numCameras_lt_1 (l : ACameraIdList) :
  (numCameras l <? 1) = match l with [] => true | _ :: _ => false end.
Proof.
  destruct l as [|s l]; [reflexivity|].
  unfold numCameras. apply Z.ltb_ge. cbn [List.length]. lia.
Qed.

#[local] Hint Rewrite numCameras_lt_1 : camera_guard.

Lemma events_bind {A B} (m : M A) (k : A -> M B) (g : statics) :
  events (bind m k g) =
  events (m g) ++ events (k (fst (fst (m g))) (final (m g))).
Proof.
  unfold events, final, bind.
  destruct (m g) as [[a g1] t1]; cbn.
  destruct (k a g1) as [[b g2] t2]; reflexivity.
Qed.

Lemma final_bind {A B} (m : M A) (k : A -> M B) (g : statics) :
  final (bind m k g) = final (k (fst (fst (m g))) (final (m g))).
Proof.
  unfold final, bind.
  destruct (m g) as [[a g1] t1]; cbn.
  destruct (k a g1) as [[b g2] t2]; reflexivity.
Qed.

Lemma calls_of_app (t1 t2 : trace) :
  calls_of (t1 ++ t2) = calls_of t1 ++ calls_of t2.
Proof. apply flat_map_app. Qed.

Lemma errors_of_app (t1 t2 : trace) :
  errors_of (t1 ++ t2) = errors_of t1 ++ errors_of t2.
Proof. apply flat_map_app. Qed.

Lemma get_set (x y : slot) (v : ptr) (g : statics) :
  get y (set x v g) = if slot_eqb x y then v else get y g.
Proof. destruct x, y; reflexivity. Qed.

(** ** Teardown, case by case on which handles are held *)

Lemma stopPreview_final (st : camera_status_t) (env clazz : ptr) (g : statics) :
  final (stopPreview st env clazz g) =
  {| val_theNativeWindow := NULL;
     val_cameraDevice := NULL;
     val_captureRequest := NULL;
     val_cameraOutputTarget := NULL;
     val_sessionOutput := NULL;
     val_captureSessionOutputContainer := NULL;
     val_captureSession := val_captureSession g;
     deviceStateCallbacks := deviceStateCallbacks g;
     captureSessionStateCallbacks := captureSessionStateCallbacks g |}.
Proof. by_held_handles g; by_status st; reflexivity. Qed.

Lemma stopPreview_guarded (st : camera_status_t) (env clazz : ptr) (g : statics) :
  Forall guarded (events (stopPreview st env clazz g)).
Proof.
  by_held_handles g; by_status st; cbv [stopPreview closeCamera bind events];
    cbn; repeat constructor; discriminate.
Qed.

Lemma stopPreview_teardown_events
    (st : camera_status_t) (env clazz : ptr) (g : statics) :
  Forall teardown_event (events (stopPreview st env clazz g)).
Proof.
  by_held_handles g; by_status st; cbn; repeat constructor;
    try discriminate;
    unfold teardown_event; cbn;
    repeat first [ split; [discriminate | reflexivity]
                 | eexists; eexists; split; [reflexivity | discriminate] ].
Qed.

(** ** Teardown: the claims *)

(** C1, as amended.  After [stopPreview] the display surface and five of the
    six camera variables (device, capture request, output target, session
    output, output container) are null, whatever the statics held before;
    [captureSession] keeps the value it had. *)
Theorem stopPreview_empties_all_but_captureSession
    (st : camera_status_t) (env clazz : ptr) (g : statics) (x : slot) :
  get x (final (stopPreview st env clazz g)) =
  if slot_eqb x captureSession then get captureSession g else NULL.
Proof. rewrite stopPreview_final. destruct x; reflexivity. Qed.

(** C1, as stated, fails: after a fully successful start on one camera, stop
    leaves a non-null [captureSession]. *)
Lemma stopPreview_not_all_null :
  ~ (forall x : slot,
       get x (final (run [Start camera_0_ok 1%N 2%N 3%N;
                          Stop ACAMERA_OK 1%N 2%N] initial_statics)) = NULL).
Proof. intros H. specialize (H captureSession). vm_compute in H. discriminate. Qed.

(** C4.  Each release is followed by the assignment of null to its variable;
    a second [stopPreview] right after a first one leaves the statics as the
    first left them, and releases nothing. *)
Theorem stopPreview_idempotent
    (st1 st2 : camera_status_t) (env1 clazz1 env2 clazz2 : ptr) (g : statics) :
  let g1 := final (stopPreview st1 env1 clazz1 g) in
  nulled_after_release (events (stopPreview st1 env1 clazz1 g)) /\
  final (stopPreview st2 env2 clazz2 g1) = g1 /\
  releases_of (events (stopPreview st2 env2 clazz2 g1)) = [].
Proof.
  cbv zeta. split.
  - by_held_handles g; by_status st1; cbn; repeat split.
  - rewrite (stopPreview_final st1 env1 clazz1 g).
    split; [rewrite stopPreview_final|]; reflexivity.
Qed.

(** ** Opening and assembling, case by case on the platform's answers *)

Lemma openCamera_no_release pf templ g :
  releases_of (events (openCamera pf templ g)) = [].
Proof.
  by_answers pf. open_cases st0 ids; try reflexivity.
  open_subcases st1 md st2 dv st3 rq; reflexivity.
Qed.

Lemma openCamera_early pf templ g :
  early_return pf = true ->
  final (openCamera pf templ g) = g /\
  calls_of (events (openCamera pf templ g)) =
  [ACameraManager_create;
   ACameraManager_getCameraIdList (ans_manager_create pf)].
Proof.
  by_answers pf. open_cases st0 ids; intros H; try discriminate H;
    split; reflexivity.
Qed.

Lemma openCamera_full_calls pf templ g :
  early_return pf = false ->
  calls_of (events (openCamera pf templ g)) =
  let mgr := ans_manager_create pf in
  let id := cameraIds_0 (snd (ans_getCameraIdList pf)) in
  [ACameraManager_create;
   ACameraManager_getCameraIdList mgr;
   ACameraManager_getCameraCharacteristics mgr id;
   ACameraManager_openCamera mgr id
     {| onDisconnected := Some camera_device_on_disconnected;
        onError := Some camera_device_on_error |};
   ACameraDevice_createCaptureRequest
     (assign_out (snd (ans_openCamera pf)) (get cameraDevice g)) templ;
   ACameraMetadata_free
     (assign_out (snd (ans_getCameraCharacteristics pf)) NULL);
   ACameraManager_deleteCameraIdList (snd (ans_getCameraIdList pf));
   ACameraManager_delete mgr].
Proof.
  by_answers pf. open_cases st0 ids; intros H; try discriminate H.
  open_subcases st1 md st2 dv st3 rq; reflexivity.
Qed.

Lemma openCamera_full_get pf templ g x :
  early_return pf = false ->
  get x (final (openCamera pf templ g)) =
  match x with
  | cameraDevice => assign_out (snd (ans_openCamera pf)) (get cameraDevice g)
  | captureRequest =>
      assign_out (snd (ans_createCaptureRequest pf)) (get captureRequest g)
  | _ => get x g
  end.
Proof.
  by_answers pf. open_cases st0 ids; intros H; try discriminate H.
  open_subcases st1 md st2 dv st3 rq; destruct x; reflexivity.
Qed.

Lemma openCamera_session_callbacks pf templ g :
  captureSessionStateCallbacks (final (openCamera pf templ g)) =
  captureSessionStateCallbacks g.
Proof.
  by_answers pf. open_cases st0 ids; try reflexivity.
  open_subcases st1 md st2 dv st3 rq; reflexivity.
Qed.

Lemma openCamera_errors pf templ g :
  errors_of (events (openCamera pf templ g)) =
  map error_line (filter (fun f => occurs f pf) opening_failures).
Proof.
  unfold opening_failures.
  by_answers pf. open_cases st0 ids; try reflexivity.
  open_subcases st1 md st2 dv st3 rq; reflexivity.
Qed.

Lemma assemble_no_release pf g : releases_of (events (assemble pf g)) = [].
Proof. by_answers pf. destruct tg, so, ct, ss; reflexivity. Qed.

Lemma assemble_calls_of pf g :
  calls_of (events (assemble pf g)) = assemble_calls pf g.
Proof. by_answers pf. destruct tg, so, ct, ss; reflexivity. Qed.

Lemma assemble_errors pf g : errors_of (events (assemble pf g)) = [].
Proof. by_answers pf. destruct tg, so, ct, ss; reflexivity. Qed.

Lemma assemble_get pf g x :
  get x (final (assemble pf g)) =
  match x with
  | cameraOutputTarget =>
      assign_out (ans_outputTarget_create pf) (get cameraOutputTarget g)
  | sessionOutput =>
      assign_out (ans_sessionOutput_create pf) (get sessionOutput g)
  | captureSessionOutputContainer =>
      assign_out (ans_container_create pf)
        (get captureSessionOutputContainer g)
  | captureSession =>
      assign_out (ans_createCaptureSession pf) (get captureSession g)
  | _ => get x g
  end.
Proof. by_answers pf. destruct tg, so, ct, ss, x; reflexivity. Qed.

(** [startPreview] is the window assignment, the opener, one log line and
    the assembly, one after the other whatever the opener met. *)
Lemma startPreview_events pf env clazz surface g :
  events (startPreview pf env clazz surface g) =
  (g, Call (ANativeWindow_fromSurface env surface))
  :: (g, Store theNativeWindow (ans_fromSurface pf))
  :: events (openCamera pf TEMPLATE_PREVIEW (after_window pf g))
  ++ (after_open pf g,
      Log ANDROID_LOG_INFO "Surface is prepared in %p.\n" [ArgPtr surface])
  :: events (assemble pf (after_open pf g)).
Proof.
  unfold startPreview. rewrite !events_bind, ?final_bind. reflexivity.
Qed.

Lemma startPreview_final pf env clazz surface g :
  final (startPreview pf env clazz surface g) =
  final (assemble pf (after_open pf g)).
Proof.
  unfold startPreview. rewrite !final_bind. reflexivity.
Qed.

Lemma startPreview_calls pf env clazz surface g :
  calls_of (events (startPreview pf env clazz surface g)) =
  ANativeWindow_fromSurface env surface
  :: calls_of (events (openCamera pf TEMPLATE_PREVIEW (after_window pf g)))
  ++ assemble_calls pf (after_open pf g).
Proof.
  rewrite startPreview_events.
  change (calls_of ((g, Call (ANativeWindow_fromSurface env surface))
                    :: (g, Store theNativeWindow (ans_fromSurface pf)) :: ?t))
    with (ANativeWindow_fromSurface env surface :: calls_of t).
  rewrite calls_of_app. f_equal. f_equal.
  change (calls_of ((?g1, Log ?s ?f ?a) :: ?t)) with (calls_of t).
  apply assemble_calls_of.
Qed.

Lemma startPreview_errors pf env clazz surface g :
  errors_of (events (startPreview pf env clazz surface g)) =
  errors_of (events (openCamera pf TEMPLATE_PREVIEW (after_window pf g))).
Proof.
  rewrite startPreview_events.
  change (errors_of ((g, Call (ANativeWindow_fromSurface env surface))
                     :: (g, Store theNativeWindow (ans_fromSurface pf)) :: ?t))
    with (errors_of t).
  rewrite errors_of_app.
  change (errors_of ((?g1, Log ANDROID_LOG_INFO ?f ?a) :: ?t))
    with (errors_of t).
  rewrite assemble_errors. apply app_nil_r.
Qed.

Lemma startPreview_no_release pf env clazz surface g :
  releases_of (events (startPreview pf env clazz surface g)) = [].
Proof.
  unfold releases_of. rewrite startPreview_calls.
  cbn [filter is_release released]. rewrite filter_app.
  fold (releases_of (events (openCamera pf TEMPLATE_PREVIEW (after_window pf g)))).
  rewrite openCamera_no_release. reflexivity.
Qed.

Lemma after_open_get pf g x :
  get x (after_open pf g) =
  match x with
  | theNativeWindow => ans_fromSurface pf
  | cameraDevice =>
      if early_return pf then get cameraDevice g
      else assign_out (snd (ans_openCamera pf)) (get cameraDevice g)
  | captureRequest =>
      if early_return pf then get captureRequest g
      else assign_out (snd (ans_createCaptureRequest pf)) (get captureRequest g)
  | _ => get x g
  end.
Proof.
  unfold after_open. destruct (early_return pf) eqn:E.
  - destruct (openCamera_early pf TEMPLATE_PREVIEW (after_window pf g) E)
      as [-> _].
    unfold after_window. rewrite get_set. destruct x; reflexivity.
  - rewrite openCamera_full_get by exact E.
    unfold after_window. rewrite !get_set. destruct x; reflexivity.
Qed.

Lemma no_release_guarded (t : trace) : releases_of t = [] -> Forall guarded t.
Proof.
  induction t as [|[g e] t IH]; intros H; constructor.
  - unfold guarded. destruct e as [c| |]; cbn; trivial.
    unfold releases_of in H. cbn in H. unfold is_release in H.
    destruct (released c) as [[x p]|]; [discriminate H | trivial].
  - apply IH. unfold releases_of in *.
    destruct e as [c| |]; cbn in H; trivial.
    destruct (is_release c); [discriminate H | exact H].
Qed.

Lemma run_cons_events c cs g :
  events (run (c :: cs) g) =
  events (run_call c g) ++ events (run cs (final (run_call c g))).
Proof. exact (events_bind (run_call c) (fun _ => run cs) g). Qed.

Lemma run_call_guarded c g : Forall guarded (events (run_call c g)).
Proof.
  destruct c as [pf env clazz surface | st env clazz]; cbn [run_call].
  - apply no_release_guarded, startPreview_no_release.
  - apply stopPreview_guarded.
Qed.

Lemma run_guarded cs : forall g, Forall guarded (events (run cs g)).
Proof.
  induction cs as [|c cs IH]; intros g.
  - constructor.
  - rewrite run_cons_events. apply Forall_app. split.
    + apply run_call_guarded.
    + apply IH.
Qed.

Lemma stopPreview_releases st env clazz g :
  releases_of (events (stopPreview st env clazz g)) =
  release_if_held ACaptureRequest_free (get captureRequest g)
  ++ release_if_held ACameraOutputTarget_free (get cameraOutputTarget g)
  ++ release_if_held ACameraDevice_close (get cameraDevice g)
  ++ release_if_held ACaptureSessionOutput_free (get sessionOutput g)
  ++ release_if_held ACaptureSessionOutputContainer_free
       (get captureSessionOutputContainer g)
  ++ release_if_held ANativeWindow_release (get theNativeWindow g).
Proof. by_held_handles g; by_status st; reflexivity. Qed.

Lemma leak_free_app_no_release (t1 t2 : trace) :
  releases_of t1 = [] ->
  leak_free [] (t1 ++ t2) = leak_free [] t1 && leak_free [] t2.
Proof.
  induction t1 as [|[g e] t1 IH]; intros H; [reflexivity|].
  unfold releases_of in H, IH.
  destruct e as [c|sev fmt args|x v]; cbn in H |- *.
  - unfold is_release in H.
    destruct (released c) as [xp|]; [discriminate H|]. apply IH, H.
  - apply IH, H.
  - rewrite IH by exact H. apply andb_assoc.
Qed.

Lemma openCamera_leak_free pf templ g :
  get cameraDevice g = NULL -> get captureRequest g = NULL ->
  leak_free [] (events (openCamera pf templ g)) = true.
Proof.
  destruct g as [win dev req tgt so' cont sess dcb scb]; cbn.
  intros Hdev Hreq; subst dev req.
  by_answers pf. open_cases st0 ids; try reflexivity.
  open_subcases st1 md st2 dv st3 rq; reflexivity.
Qed.

Lemma assemble_leak_free pf g :
  get cameraOutputTarget g = NULL -> get sessionOutput g = NULL ->
  get captureSessionOutputContainer g = NULL -> get captureSession g = NULL ->
  leak_free [] (events (assemble pf g)) = true.
Proof.
  destruct g as [win dev req tgt so' cont sess dcb scb]; cbn.
  intros Htgt Hso Hcont Hsess; subst tgt so' cont sess.
  by_answers pf. destruct tg, so, ct, ss; reflexivity.
Qed.

(** ** Start and stop together: the claims *)

(** C3.  Whatever the sequence of starts and stops and whatever the platform
    answers, every release in the run is given the content of its static
    variable, and that content is not null; a stop on the initial statics,
    where nothing was ever allocated, calls no release at all. *)
Theorem stop_releases_only_held_handles
    (cs : list jni_call) (st : camera_status_t) (env clazz : ptr) :
  Forall guarded (events (run cs initial_statics)) /\
  map snd (events (stopPreview st env clazz initial_statics)) =
  [Log ANDROID_LOG_INFO "Close Camera\n" []].
Proof. split; [apply run_guarded | reflexivity]. Qed.

(** C5, as amended.  When enumeration succeeds with zero cameras the opener
    logs one error and returns, with no device opened and no request
    created: the device and request variables are what they were.  The start
    still assembles the session, so the stop that follows releases every
    handle then held, output target, session output, container and window
    included, each behind its null check. *)
Theorem startPreview_without_camera
    (pf : answers) (env clazz surface : ptr)
    (st : camera_status_t) (env' clazz' : ptr) (g : statics) :
  fst (ans_getCameraIdList pf) = ACAMERA_OK ->
  numCameras (snd (ans_getCameraIdList pf)) = 0 ->
  let g1 := final (startPreview pf env clazz surface g) in
  map snd (events (openCamera pf TEMPLATE_PREVIEW (after_window pf g))) =
    [Call ACameraManager_create;
     Call (ACameraManager_getCameraIdList (ans_manager_create pf));
     Log ANDROID_LOG_ERROR "No camera device detected.\n" []] /\
  get cameraDevice g1 = get cameraDevice g /\
  get captureRequest g1 = get captureRequest g /\
  releases_of (events (stopPreview st env' clazz' g1)) =
    release_if_held ACaptureRequest_free (get captureRequest g)
    ++ release_if_held ACameraOutputTarget_free
         (assign_out (ans_outputTarget_create pf) (get cameraOutputTarget g))
    ++ release_if_held ACameraDevice_close (get cameraDevice g)
    ++ release_if_held ACaptureSessionOutput_free
         (assign_out (ans_sessionOutput_create pf) (get sessionOutput g))
    ++ release_if_held ACaptureSessionOutputContainer_free
         (assign_out (ans_container_create pf)
            (get captureSessionOutputContainer g))
    ++ release_if_held ANativeWindow_release (ans_fromSurface pf) /\
  Forall guarded (events (stopPreview st env' clazz' g1)).
Proof.
  intros Hst Hnum g1.
  assert (E : early_return pf = true).
  { unfold early_return. rewrite Hnum. apply orb_true_r. }
  assert (G : forall x, get x g1 =
     match x with
     | theNativeWindow => ans_fromSurface pf
     | cameraOutputTarget =>
         assign_out (ans_outputTarget_create pf) (get cameraOutputTarget g)
     | sessionOutput =>
         assign_out (ans_sessionOutput_create pf) (get sessionOutput g)
     | captureSessionOutputContainer =>
         assign_out (ans_container_create pf)
           (get captureSessionOutputContainer g)
     | captureSession =>
         assign_out (ans_createCaptureSession pf) (get captureSession g)
     | _ => get x g
     end).
  { intros x. unfold g1. rewrite startPreview_final, assemble_get.
    rewrite !after_open_get, E. destruct x; reflexivity. }
  split; [| split; [apply G | split; [apply G | split]]].
  - clear G g1. revert Hst Hnum. by_answers pf. cbn [ans_getCameraIdList fst snd].
    intros -> Hnum. destruct ids; [reflexivity | discriminate Hnum].
  - rewrite stopPreview_releases, !G. reflexivity.
  - apply stopPreview_guarded.
Qed.

Lemma startPreview_without_camera_witness :
  releases_of
    (events (stopPreview ACAMERA_OK 1%N 2%N
               (final (startPreview no_camera 1%N 2%N 3%N initial_statics)))) =
  [ACameraOutputTarget_free 16%N; ACaptureSessionOutput_free 17%N;
   ACaptureSessionOutputContainer_free 18%N; ANativeWindow_release 11%N].
Proof.
  exact (proj1 (proj2 (proj2 (proj2
    (startPreview_without_camera no_camera 1%N 2%N 3%N ACAMERA_OK 1%N 2%N
       initial_statics eq_refl eq_refl))))).
Defined.

(** C5, as stated, fails: with no camera, the window and the three output
    objects are still created, and the stop that follows releases them. *)
Lemma stop_after_cameraless_start_is_not_a_noop :
  let g1 := final (startPreview no_camera 1%N 2%N 3%N initial_statics) in
  numCameras (snd (ans_getCameraIdList no_camera)) = 0 /\
  ~ (final (stopPreview ACAMERA_OK 1%N 2%N g1) = g1 /\
     releases_of (events (stopPreview ACAMERA_OK 1%N 2%N g1)) = []).
Proof.
  cbv zeta. split; [reflexivity|].
  intros [_ H]. vm_compute in H. discriminate H.
Qed.

(** C6, as amended.  A start releases nothing; entered with every handle
    variable null, it overwrites no held handle. *)
Theorem startPreview_leak_free_from_empty
    (pf : answers) (env clazz surface : ptr) (g : statics) :
  releases_of (events (startPreview pf env clazz surface g)) = [] /\
  ((forall x, get x g = NULL) ->
   leak_free [] (events (startPreview pf env clazz surface g)) = true).
Proof.
  split; [apply startPreview_no_release|].
  intros H. rewrite startPreview_events.
  cbn [leak_free released]. rewrite (H theNativeWindow).
  cbn [is_null N.eqb NULL orb andb filter].
  rewrite leak_free_app_no_release by apply openCamera_no_release.
  apply andb_true_intro. split.
  - apply openCamera_leak_free; unfold after_window; rewrite get_set; apply H.
  - cbn [leak_free].
    apply assemble_leak_free; rewrite after_open_get; apply H.
Qed.

Lemma startPreview_leak_free_from_empty_witness :
  leak_free []
    (events (startPreview camera_0_ok 1%N 2%N 3%N initial_statics)) = true.
Proof.
  apply (proj2 (startPreview_leak_free_from_empty camera_0_ok 1%N 2%N 3%N
                  initial_statics)).
  intros x; destruct x; reflexivity.
Defined.

(** C6, as stated, fails: a second start without a stop in between releases
    nothing and overwrites the window the first start acquired. *)
Lemma second_start_overwrites_held_handles :
  let t := events (run [Start camera_0_ok 1%N 2%N 3%N;
                        Start camera_0_again 1%N 2%N 3%N] initial_statics) in
  leak_free [] t = false /\
  releases_of t = [] /\
  exists g, In (g, Store theNativeWindow 21%N) t /\
            get theNativeWindow g = 11%N.
Proof.
  cbv zeta. split; [vm_compute; reflexivity|].
  split; [vm_compute; reflexivity|].
  exists (final (startPreview camera_0_ok 1%N 2%N 3%N initial_statics)).
  split; [|reflexivity].
  vm_compute. repeat first [left; reflexivity | right].
Qed.

(** C7.  Whatever the platform answers, the error lines of the opener are
    exactly those of the failures it runs into, in order, and the whole
    start logs no other error and calls no platform function twice.  The
    opener's calls are written out: after a failed enumeration or with no
    camera it stops after the id list; otherwise it goes through
    characteristics, open, capture request and the three cleanup calls
    whatever each of them reported, the capture request being asked of the
    device variable as the open call left it.  After the opener the device
    and request variables hold what the platform stored, or what they held
    before, and the start goes on to the seven assembly calls, which are
    given exactly those contents. *)
Theorem openCamera_logs_and_continues
    (pf : answers) (env clazz surface : ptr) (g : statics) :
  let t := events (startPreview pf env clazz surface g) in
  let t_open := events (openCamera pf TEMPLATE_PREVIEW (after_window pf g)) in
  let mgr := ans_manager_create pf in
  let ids := snd (ans_getCameraIdList pf) in
  let id := cameraIds_0 ids in
  let win := ans_fromSurface pf in
  let dev :=
    if early_return pf then get cameraDevice g
    else assign_out (snd (ans_openCamera pf)) (get cameraDevice g) in
  let req :=
    if early_return pf then get captureRequest g
    else assign_out (snd (ans_createCaptureRequest pf))
           (get captureRequest g) in
  let tgt := assign_out (ans_outputTarget_create pf) (get cameraOutputTarget g) in
  let so := assign_out (ans_sessionOutput_create pf) (get sessionOutput g) in
  let cont := assign_out (ans_container_create pf)
                (get captureSessionOutputContainer g) in
  let sess := assign_out (ans_createCaptureSession pf) (get captureSession g) in
  errors_of t_open =
    map error_line (filter (fun f => occurs f pf) opening_failures) /\
  errors_of t = errors_of t_open /\
  NoDup (map call_name (calls_of t)) /\
  calls_of t =
    ANativeWindow_fromSurface env surface
    :: calls_of t_open ++ assemble_calls pf (after_open pf g) /\
  calls_of t_open =
    (if early_return pf
     then [ACameraManager_create; ACameraManager_getCameraIdList mgr]
     else [ACameraManager_create;
           ACameraManager_getCameraIdList mgr;
           ACameraManager_getCameraCharacteristics mgr id;
           ACameraManager_openCamera mgr id
             {| onDisconnected := Some camera_device_on_disconnected;
                onError := Some camera_device_on_error |};
           ACameraDevice_createCaptureRequest
             (assign_out (snd (ans_openCamera pf)) (get cameraDevice g))
             TEMPLATE_PREVIEW;
           ACameraMetadata_free
             (assign_out (snd (ans_getCameraCharacteristics pf)) NULL);
           ACameraManager_deleteCameraIdList ids;
           ACameraManager_delete mgr]) /\
  get cameraDevice (after_open pf g) = dev /\
  get captureRequest (after_open pf g) = req /\
  assemble_calls pf (after_open pf g) =
    [ACameraOutputTarget_create win;
     ACaptureRequest_addTarget req tgt;
     ACaptureSessionOutput_create win;
     ACaptureSessionOutputContainer_create;
     ACaptureSessionOutputContainer_add cont so;
     ACameraDevice_createCaptureSession dev cont
       {| onClosed := onClosed (captureSessionStateCallbacks g);
          onReady := Some capture_session_on_ready;
          onActive := Some capture_session_on_active |};
     ACameraCaptureSession_setRepeatingRequest sess NULL 1 [req] NULL].
Proof.
  cbv zeta. split; [apply openCamera_errors|].
  split; [apply startPreview_errors|].
  split.
  { rewrite startPreview_calls.
    destruct (early_return pf) eqn:E.
    - destruct (openCamera_early pf TEMPLATE_PREVIEW (after_window pf g) E)
        as [_ ->].
      match goal with
      | |- NoDup ?l =>
          replace l with (nodup string_dec l) by reflexivity
      end.
      apply NoDup_nodup.
    - rewrite openCamera_full_calls by exact E.
      match goal with
      | |- NoDup ?l =>
          replace l with (nodup string_dec l) by reflexivity
      end.
      apply NoDup_nodup. }
  split; [apply startPreview_calls|].
  split.
  { destruct (early_return pf) eqn:E.
    - apply (openCamera_early pf TEMPLATE_PREVIEW (after_window pf g) E).
    - rewrite openCamera_full_calls by exact E.
      unfold after_window. rewrite get_set. reflexivity. }
  split; [exact (after_open_get pf g cameraDevice)|].
  split; [exact (after_open_get pf g captureRequest)|].
  unfold assemble_calls. rewrite !after_open_get.
  unfold after_open. rewrite openCamera_session_callbacks.
  reflexivity.
Qed.

(** C8.  When enumeration succeeds with at least one camera, the start makes
    exactly these calls, in this order: characteristics and open for the
    first identifier, a capture request from the preview template on the
    device variable, an output target and a session output on the window of
    the surface, one container with that one output, a session on device and
    container, and a repeating request of one request, the capture
    request. *)
Theorem startPreview_call_sequence
    (pf : answers) (env clazz surface : ptr) (g : statics) :
  fst (ans_getCameraIdList pf) = ACAMERA_OK ->
  1 <= numCameras (snd (ans_getCameraIdList pf)) ->
  let ids := snd (ans_getCameraIdList pf) in
  let id := cameraIds_0 ids in
  let mgr := ans_manager_create pf in
  let win := ans_fromSurface pf in
  let dev := assign_out (snd (ans_openCamera pf)) (get cameraDevice g) in
  let req :=
    assign_out (snd (ans_createCaptureRequest pf)) (get captureRequest g) in
  let tgt := assign_out (ans_outputTarget_create pf) (get cameraOutputTarget g) in
  let so := assign_out (ans_sessionOutput_create pf) (get sessionOutput g) in
  let cont := assign_out (ans_container_create pf)
                (get captureSessionOutputContainer g) in
  let sess := assign_out (ans_createCaptureSession pf) (get captureSession g) in
  hd_error ids = Some id /\
  calls_of (events (startPreview pf env clazz surface g)) =
  [ANativeWindow_fromSurface env surface;
   ACameraManager_create;
   ACameraManager_getCameraIdList mgr;
   ACameraManager_getCameraCharacteristics mgr id;
   ACameraManager_openCamera mgr id
     {| onDisconnected := Some camera_device_on_disconnected;
        onError := Some camera_device_on_error |};
   ACameraDevice_createCaptureRequest dev TEMPLATE_PREVIEW;
   ACameraMetadata_free
     (assign_out (snd (ans_getCameraCharacteristics pf)) NULL);
   ACameraManager_deleteCameraIdList ids;
   ACameraManager_delete mgr;
   ACameraOutputTarget_create win;
   ACaptureRequest_addTarget req tgt;
   ACaptureSessionOutput_create win;
   ACaptureSessionOutputContainer_create;
   ACaptureSessionOutputContainer_add cont so;
   ACameraDevice_createCaptureSession dev cont
     {| onClosed := onClosed (captureSessionStateCallbacks g);
        onReady := Some capture_session_on_ready;
        onActive := Some capture_session_on_active |};
   ACameraCaptureSession_setRepeatingRequest sess NULL 1 [req] NULL].
Proof.
  intros Hst Hnum.
  assert (E : early_return pf = false).
  { unfold early_return. rewrite Hst. apply Z.ltb_ge. exact Hnum. }
  cbv zeta. split.
  - unfold cameraIds_0, numCameras in *.
    destruct (snd (ans_getCameraIdList pf)); [cbn in Hnum; lia | reflexivity].
  - rewrite startPreview_calls, openCamera_full_calls by exact E.
    unfold assemble_calls. rewrite !after_open_get, E.
    unfold after_open. rewrite openCamera_session_callbacks.
    reflexivity.
Qed.

Lemma startPreview_call_sequence_witness :
  calls_of (events (startPreview camera_0_ok 1%N 2%N 3%N initial_statics)) =
  [ANativeWindow_fromSurface 1%N 3%N;
   ACameraManager_create;
   ACameraManager_getCameraIdList 12%N;
   ACameraManager_getCameraCharacteristics 12%N "0";
   ACameraManager_openCamera 12%N "0"
     {| onDisconnected := Some camera_device_on_disconnected;
        onError := Some camera_device_on_error |};
   ACameraDevice_createCaptureRequest 14%N TEMPLATE_PREVIEW;
   ACameraMetadata_free 13%N;
   ACameraManager_deleteCameraIdList ["0"%string];
   ACameraManager_delete 12%N;
   ACameraOutputTarget_create 11%N;
   ACaptureRequest_addTarget 15%N 16%N;
   ACaptureSessionOutput_create 11%N;
   ACaptureSessionOutputContainer_create;
   ACaptureSessionOutputContainer_add 18%N 17%N;
   ACameraDevice_createCaptureSession 14%N 18%N
     {| onClosed := None;
        onReady := Some capture_session_on_ready;
        onActive := Some capture_session_on_active |};
   ACameraCaptureSession_setRepeatingRequest 19%N NULL 1 [15%N] NULL].
Proof.
  refine (proj2 (startPreview_call_sequence camera_0_ok 1%N 2%N 3%N
                   initial_statics eq_refl _)).
  cbn. lia.
Defined.

Lemma openCamera_session_untouched cs pf templ g :
  Forall (session_untouched_by_code cs) (events (openCamera pf templ g)).
Proof.
  by_answers pf. open_cases st0 ids;
    [ | open_subcases st1 md st2 dv st3 rq | | ];
    cbn; repeat constructor; intros ?; cbn; discriminate.
Qed.

Lemma assemble_session_untouched cs pf env clazz surface g :
  In (Start pf env clazz surface) cs ->
  Forall (session_untouched_by_code cs) (events (assemble pf g)).
Proof.
  intros Hin.
  assert (W : forall v, ans_createCaptureSession pf = Some v ->
            exists pf' env' clazz' surface',
              In (Start pf' env' clazz' surface') cs /\
              ans_createCaptureSession pf' = Some v).
  { intros v Hv. exists pf, env, clazz, surface. split; assumption. }
  clear Hin. revert W. by_answers pf. cbn [ans_createCaptureSession].
  intros W. destruct tg, so, ct, ss; cbn; repeat constructor;
    try (intros ?; cbn; discriminate);
    unfold session_untouched_by_code; cbn; apply W; reflexivity.
Qed.

Lemma stopPreview_session_untouched cs st env clazz g :
  Forall (session_untouched_by_code cs) (events (stopPreview st env clazz g)).
Proof.
  by_held_handles g; by_status st; cbn; repeat constructor;
    intros ?; cbn; discriminate.
Qed.

Lemma run_call_session_untouched cs c g :
  In c cs -> Forall (session_untouched_by_code cs) (events (run_call c g)).
Proof.
  destruct c as [pf env clazz surface | st env clazz]; intros Hin;
    cbn [run_call].
  - rewrite startPreview_events.
    constructor; [intros ?; cbn; discriminate|].
    constructor; [exact I|].
    apply Forall_app. split; [apply openCamera_session_untouched|].
    constructor; [exact I|].
    eapply assemble_session_untouched; exact Hin.
  - apply stopPreview_session_untouched.
Qed.

Lemma run_session_untouched cs cs' :
  incl cs' cs ->
  forall g, Forall (session_untouched_by_code cs) (events (run cs' g)).
Proof.
  induction cs' as [|c cs' IH]; intros Hincl g.
  - constructor.
  - rewrite run_cons_events. apply Forall_app. split.
    + apply run_call_session_untouched, Hincl. left; reflexivity.
    + apply IH. intros c' Hc'. apply Hincl. right; exact Hc'.
Qed.

(** C9.  [stopPreview] leaves [captureSession] as it was: all it does is
    release, or assign null to, one of the six other variables, and log.  In
    no run of starts and stops is a release applied to [captureSession], and
    the only writes to it are the platform's, through the out-parameter of
    [ACameraDevice_createCaptureSession]. *)
Theorem captureSession_never_released_nor_nulled
    (st : camera_status_t) (env clazz : ptr) (g : statics)
    (cs : list jni_call) (g0 : statics) :
  get captureSession (final (stopPreview st env clazz g)) =
    get captureSession g /\
  Forall teardown_event (events (stopPreview st env clazz g)) /\
  Forall (session_untouched_by_code cs) (events (run cs g0)).
Proof.
  split; [rewrite stopPreview_final; reflexivity|].
  split; [apply stopPreview_teardown_events|].
  apply run_session_untouched, incl_refl.
Qed.

(** C10.  A start assigns the window variable first and without condition,
    and always calls [ACaptureRequest_addTarget] and
    [ACameraDevice_createCaptureSession] with whatever the request and
    device variables hold after the opener; when the opener returned early
    that is what they held before the start, null on a first start.  When
    the opener does not return early it calls
    [ACameraDevice_createCaptureRequest] on the device variable whatever
    [ACameraManager_openCamera] reported.  With no camera, and with a failed
    open, on the initial statics, these calls are given null handles. *)
Theorem startPreview_passes_unchecked_handles
    (pf : answers) (env clazz surface : ptr) (g : statics) :
  let t := events (startPreview pf env clazz surface g) in
  let g1 := after_open pf g in
  (exists t', t = (g, Call (ANativeWindow_fromSurface env surface))
                  :: (g, Store theNativeWindow (ans_fromSurface pf)) :: t') /\
  (exists tgt,
     In (ACaptureRequest_addTarget (get captureRequest g1) tgt) (calls_of t)) /\
  (exists cont cbs,
     In (ACameraDevice_createCaptureSession (get cameraDevice g1) cont cbs)
        (calls_of t)) /\
  (early_return pf = true ->
     get captureRequest g1 = get captureRequest g /\
     get cameraDevice g1 = get cameraDevice g) /\
  (early_return pf = false ->
     In (ACameraDevice_createCaptureRequest
           (assign_out (snd (ans_openCamera pf)) (get cameraDevice g))
           TEMPLATE_PREVIEW) (calls_of t)) /\
  (let t0 := events (startPreview no_camera 1%N 2%N 3%N initial_statics) in
   In (ACaptureRequest_addTarget NULL 16%N) (calls_of t0) /\
   In (ACameraDevice_createCaptureSession NULL 18%N
         {| onClosed := None;
            onReady := Some capture_session_on_ready;
            onActive := Some capture_session_on_active |}) (calls_of t0)) /\
  (let t1 := events (startPreview open_fails 1%N 2%N 3%N initial_statics) in
   failed (fst (ans_openCamera open_fails)) = true /\
   In (ACameraDevice_createCaptureRequest NULL TEMPLATE_PREVIEW) (calls_of t1)).
Proof.
  cbv zeta.
  split; [rewrite startPreview_events; eexists; reflexivity|].
  split.
  { eexists. rewrite startPreview_calls. right. apply in_or_app. right.
    unfold assemble_calls. right. left. reflexivity. }
  split.
  { eexists. eexists. rewrite startPreview_calls. right. apply in_or_app.
    right. unfold assemble_calls. do 5 right. left. reflexivity. }
  split.
  { intros E. rewrite !after_open_get, E. split; reflexivity. }
  split.
  { intros E. rewrite startPreview_calls, openCamera_full_calls by exact E.
    cbv zeta. right. apply in_or_app. left. do 4 right. left.
    unfold after_window. rewrite get_set. reflexivity. }
  split.
  { split; vm_compute; tauto. }
  split; [reflexivity | vm_compute; tauto].
Qed.

Lemma startPreview_passes_unchecked_handles_witness :
  get captureRequest (after_open no_camera initial_statics) = NULL /\
  get cameraDevice (after_open no_camera initial_statics) = NULL /\
  In (ACameraDevice_createCaptureRequest NULL TEMPLATE_PREVIEW)
     (calls_of (events (startPreview open_fails 1%N 2%N 3%N initial_statics))).
Proof.
  pose proof (startPreview_passes_unchecked_handles no_camera 1%N 2%N 3%N
                initial_statics) as Hn.
  pose proof (startPreview_passes_unchecked_handles open_fails 1%N 2%N 3%N
                initial_statics) as Hf.
  cbv zeta in Hn, Hf.
  destruct Hn as (_ & _ & _ & Hearly & _).
  destruct Hf as (_ & _ & _ & _ & Hfull & _).
  destruct (Hearly eq_refl) as [Hreq Hdev].
  split; [exact Hreq|]. split; [exact Hdev|].
  exact (Hfull eq_refl).
Defined.

(** ** Further properties of the teardown *)

Lemma stopPreview_calls st env clazz g :
  calls_of (events (stopPreview st env clazz g)) =
  releases_of (events (stopPreview st env clazz g)).
Proof. by_held_handles g; by_status st; reflexivity. Qed.

(** X1.  A failing [ACameraDevice_close] is logged and nothing more: the
    error line appears exactly when a device is held and the close status is
    not OK, and neither the statics after a stop nor the platform calls it
    makes depend on that status. *)
Theorem stopPreview_close_failure_only_logged
    (st st' : camera_status_t) (env clazz : ptr) (g : statics) :
  errors_of (events (stopPreview st env clazz g)) =
    (if negb (is_null (get cameraDevice g)) && failed st
     then ["Failed to close CameraDevice.\n"%string] else []) /\
  final (stopPreview st env clazz g) = final (stopPreview st' env clazz g) /\
  calls_of (events (stopPreview st env clazz g)) =
    calls_of (events (stopPreview st' env clazz g)).
Proof.
  split; [|split].
  - by_held_handles g; by_status st; reflexivity.
  - rewrite !stopPreview_final. reflexivity.
  - rewrite !stopPreview_calls, !stopPreview_releases. reflexivity.
Qed.

(** X2.  In a stop the window is released last: at its release the five
    camera variables of the teardown are null.  [closeCamera] logs its one
    info line, as its last event, whatever was held. *)
Theorem stopPreview_window_released_last
    (st : camera_status_t) (env clazz : ptr) (g : statics) :
  Forall window_after_camera (events (stopPreview st env clazz g)) /\
  infos_of (events (closeCamera st g)) = ["Close Camera\n"%string] /\
  last (map snd (events (closeCamera st g))) (Store captureSession NULL) =
    Log ANDROID_LOG_INFO "Close Camera\n" [].
Proof.
  split; [|split].
  - by_held_handles g; by_status st; cbn; repeat constructor.
  - by_held_handles g; by_status st; reflexivity.
  - by_held_handles g; by_status st; reflexivity.
Qed.

(** ** Further properties of the opener *)

Lemma openCamera_writes pf templ g :
  Forall opener_write (events (openCamera pf templ g)).
Proof.
  by_answers pf. open_cases st0 ids;
    [ | open_subcases st1 md st2 dv st3 rq | | ];
    cbn; repeat (apply Forall_cons || apply Forall_nil);
    first [exact I | left; reflexivity | right; reflexivity].
Qed.

Lemma openCamera_early_events pf templ g :
  early_return pf = true ->
  map snd (events (openCamera pf templ g)) =
  [Call ACameraManager_create;
   Call (ACameraManager_getCameraIdList (ans_manager_create pf));
   if failed (fst (ans_getCameraIdList pf))
   then Log ANDROID_LOG_ERROR "Failed to get camera id list (reason: %d)\n"
          [ArgInt (fst (ans_getCameraIdList pf))]
   else Log ANDROID_LOG_ERROR "No camera device detected.\n" []].
Proof.
  by_answers pf. open_cases st0 ids; intros H; try discriminate H;
    reflexivity.
Qed.

Lemma openCamera_device_callbacks pf templ g :
  deviceStateCallbacks (final (openCamera pf templ g)) =
  if early_return pf then deviceStateCallbacks g
  else {| onDisconnected := Some camera_device_on_disconnected;
          onError := Some camera_device_on_error |}.
Proof.
  by_answers pf. open_cases st0 ids; try reflexivity.
  open_subcases st1 md st2 dv st3 rq; reflexivity.
Qed.

(** X3.  The opener always creates a manager and asks it for the id list; it
    frees the metadata, deletes the id list and deletes the manager, in this
    order and once each, only when it does not return early.  On an early
    return none of the three is called: the manager is not deleted.  The
    metadata it frees is null when the platform stored none. *)
Theorem openCamera_cleanup_only_without_early_return
    (pf : answers) (templ : ACameraDevice_request_template) (g : statics) :
  firstn 2 (calls_of (events (openCamera pf templ g))) =
    [ACameraManager_create;
     ACameraManager_getCameraIdList (ans_manager_create pf)] /\
  filter is_cleanup (calls_of (events (openCamera pf templ g))) =
    if early_return pf then []
    else [ACameraMetadata_free
            (assign_out (snd (ans_getCameraCharacteristics pf)) NULL);
          ACameraManager_deleteCameraIdList (snd (ans_getCameraIdList pf));
          ACameraManager_delete (ans_manager_create pf)].
Proof.
  destruct (early_return pf) eqn:E.
  - destruct (openCamera_early pf templ g E) as [_ ->]. split; reflexivity.
  - rewrite openCamera_full_calls by exact E. split; reflexivity.
Qed.

(** X4.  The opener writes to no static handle variable but the device and
    the request: every other one is after it what it was before, and so are
    the session callbacks. *)
Theorem openCamera_writes_device_and_request_only
    (pf : answers) (templ : ACameraDevice_request_template) (g : statics)
    (x : slot) :
  Forall opener_write (events (openCamera pf templ g)) /\
  get x (final (openCamera pf templ g)) =
    match x with
    | cameraDevice =>
        if early_return pf then get cameraDevice g
        else assign_out (snd (ans_openCamera pf)) (get cameraDevice g)
    | captureRequest =>
        if early_return pf then get captureRequest g
        else assign_out (snd (ans_createCaptureRequest pf))
               (get captureRequest g)
    | _ => get x g
    end /\
  captureSessionStateCallbacks (final (openCamera pf templ g)) =
    captureSessionStateCallbacks g.
Proof.
  split; [apply openCamera_writes|].
  split; [|apply openCamera_session_callbacks].
  destruct (early_return pf) eqn:E.
  - destruct (openCamera_early pf templ g E) as [-> _].
    destruct x; reflexivity.
  - rewrite openCamera_full_get by exact E. destruct x; reflexivity.
Qed.

(** X5.  When enumeration fails the opener logs the status code it got, at
    error severity, and returns: it makes no further call, reads no id and
    leaves the statics as they were. *)
Theorem openCamera_enumeration_failure
    (pf : answers) (templ : ACameraDevice_request_template) (g : statics) :
  fst (ans_getCameraIdList pf) <> ACAMERA_OK ->
  map snd (events (openCamera pf templ g)) =
    [Call ACameraManager_create;
     Call (ACameraManager_getCameraIdList (ans_manager_create pf));
     Log ANDROID_LOG_ERROR "Failed to get camera id list (reason: %d)\n"
       [ArgInt (fst (ans_getCameraIdList pf))]] /\
  final (openCamera pf templ g) = g.
Proof.
  intros Hst.
  assert (F : failed (fst (ans_getCameraIdList pf)) = true).
  { unfold failed. apply negb_true_iff, Z.eqb_neq, Hst. }
  assert (E : early_return pf = true).
  { unfold early_return. rewrite F. reflexivity. }
  split.
  - rewrite openCamera_early_events by exact E. rewrite F. reflexivity.
  - apply (openCamera_early pf templ g E).
Qed.

Lemma openCamera_enumeration_failure_witness :
  map snd (events (openCamera
     {| ans_fromSurface := 11%N;
        ans_manager_create := 12%N;
        ans_getCameraIdList := (-10002, ["0"%string]);
        ans_getCameraCharacteristics := (ACAMERA_OK, Some 13%N);
        ans_openCamera := (ACAMERA_OK, Some 14%N);
        ans_createCaptureRequest := (ACAMERA_OK, Some 15%N);
        ans_outputTarget_create := Some 16%N;
        ans_sessionOutput_create := Some 17%N;
        ans_container_create := Some 18%N;
        ans_createCaptureSession := Some 19%N |}
     TEMPLATE_PREVIEW initial_statics)) =
  [Call ACameraManager_create;
   Call (ACameraManager_getCameraIdList 12%N);
   Log ANDROID_LOG_ERROR "Failed to get camera id list (reason: %d)\n"
     [ArgInt (-10002)]].
Proof.
  refine (proj1 (openCamera_enumeration_failure _ TEMPLATE_PREVIEW
                   initial_statics _)).
  cbn. discriminate.
Defined.

(** ** Further properties of a start, and of starts and stops together *)

Lemma releases_of_app (t1 t2 : trace) :
  releases_of (t1 ++ t2) = releases_of t1 ++ releases_of t2.
Proof. unfold releases_of. rewrite calls_of_app. apply filter_app. Qed.

Lemma assemble_device_callbacks pf g :
  deviceStateCallbacks (final (assemble pf g)) = deviceStateCallbacks g.
Proof. by_answers pf. destruct tg, so, ct, ss; reflexivity. Qed.

Lemma assemble_session_callbacks pf g :
  captureSessionStateCallbacks (final (assemble pf g)) =
  {| onClosed := onClosed (captureSessionStateCallbacks g);
     onReady := Some capture_session_on_ready;
     onActive := Some capture_session_on_active |}.
Proof. by_answers pf. destruct tg, so, ct, ss; reflexivity. Qed.

Lemma startPreview_get pf env clazz surface g x :
  get x (final (startPreview pf env clazz surface g)) =
  match x with
  | theNativeWindow => ans_fromSurface pf
  | cameraDevice =>
      if early_return pf then get cameraDevice g
      else assign_out (snd (ans_openCamera pf)) (get cameraDevice g)
  | captureRequest =>
      if early_return pf then get captureRequest g
      else assign_out (snd (ans_createCaptureRequest pf)) (get captureRequest g)
  | cameraOutputTarget =>
      assign_out (ans_outputTarget_create pf) (get cameraOutputTarget g)
  | sessionOutput =>
      assign_out (ans_sessionOutput_create pf) (get sessionOutput g)
  | captureSessionOutputContainer =>
      assign_out (ans_container_create pf)
        (get captureSessionOutputContainer g)
  | captureSession =>
      assign_out (ans_createCaptureSession pf) (get captureSession g)
  end.
Proof.
  rewrite startPreview_final, assemble_get, !after_open_get.
  destruct x; reflexivity.
Qed.

Lemma startPreview_device_callbacks pf env clazz surface g :
  deviceStateCallbacks (final (startPreview pf env clazz surface g)) =
  if early_return pf then deviceStateCallbacks g
  else {| onDisconnected := Some camera_device_on_disconnected;
          onError := Some camera_device_on_error |}.
Proof.
  rewrite startPreview_final, assemble_device_callbacks.
  unfold after_open. rewrite openCamera_device_callbacks. reflexivity.
Qed.

Lemma startPreview_session_callbacks pf env clazz surface g :
  captureSessionStateCallbacks (final (startPreview pf env clazz surface g)) =
  {| onClosed := onClosed (captureSessionStateCallbacks g);
     onReady := Some capture_session_on_ready;
     onActive := Some capture_session_on_active |}.
Proof.
  rewrite startPreview_final, assemble_session_callbacks.
  unfold after_open. rewrite openCamera_session_callbacks. reflexivity.
Qed.

(** X6.  What a start leaves in the statics: the window variable holds what
    [ANativeWindow_fromSurface] returned; device and request hold what the
    platform stored, or their old value when it stored nothing or the opener
    returned early; output target, session output, container and session
    hold what the platform stored, or their old value.  The session
    callbacks are registered in any case, the device callbacks unless the
    opener returned early.  No variable is reset by the start itself. *)
Theorem startPreview_statics
    (pf : answers) (env clazz surface : ptr) (g : statics) (x : slot) :
  let g' := final (startPreview pf env clazz surface g) in
  get x g' =
    match x with
    | theNativeWindow => ans_fromSurface pf
    | cameraDevice =>
        if early_return pf then get cameraDevice g
        else assign_out (snd (ans_openCamera pf)) (get cameraDevice g)
    | captureRequest =>
        if early_return pf then get captureRequest g
        else assign_out (snd (ans_createCaptureRequest pf))
               (get captureRequest g)
    | cameraOutputTarget =>
        assign_out (ans_outputTarget_create pf) (get cameraOutputTarget g)
    | sessionOutput =>
        assign_out (ans_sessionOutput_create pf) (get sessionOutput g)
    | captureSessionOutputContainer =>
        assign_out (ans_container_create pf)
          (get captureSessionOutputContainer g)
    | captureSession =>
        assign_out (ans_createCaptureSession pf) (get captureSession g)
    end /\
  captureSessionStateCallbacks g' =
    {| onClosed := onClosed (captureSessionStateCallbacks g);
       onReady := Some capture_session_on_ready;
       onActive := Some capture_session_on_active |} /\
  deviceStateCallbacks g' =
    if early_return pf then deviceStateCallbacks g
    else {| onDisconnected := Some camera_device_on_disconnected;
            onError := Some camera_device_on_error |}.
Proof.
  cbv zeta. split; [|split].
  - rewrite startPreview_final, assemble_get, !after_open_get.
    destruct x; reflexivity.
  - rewrite startPreview_final, assemble_session_callbacks.
    unfold after_open. rewrite openCamera_session_callbacks. reflexivity.
  - rewrite startPreview_final, assemble_device_callbacks.
    unfold after_open. rewrite openCamera_device_callbacks. reflexivity.
Qed.

Lemma stopPreview_leak_free st env clazz g :
  leak_free [] (events (stopPreview st env clazz g)) = true.
Proof.
  by_held_handles g; by_status st; cbn; rewrite ?Pos.eqb_refl; reflexivity.
Qed.

Lemma run_two_events c1 c2 g :
  events (run [c1; c2] g) =
  events (run_call c1 g) ++ events (run_call c2 (final (run_call c1 g))).
Proof.
  rewrite run_cons_events, run_cons_events. cbn [run].
  unfold ret at 1. cbn [events snd]. rewrite app_nil_r. reflexivity.
Qed.

Lemma startPreview_leak_free_when_empty pf env clazz surface g :
  (forall x, get x g = NULL) ->
  leak_free [] (events (startPreview pf env clazz surface g)) = true.
Proof.
  intros H. rewrite startPreview_events.
  cbn [leak_free released]. rewrite (H theNativeWindow).
  cbn [is_null N.eqb NULL orb andb filter].
  rewrite leak_free_app_no_release by apply openCamera_no_release.
  apply andb_true_intro. split.
  - apply openCamera_leak_free; unfold after_window; rewrite get_set; apply H.
  - cbn [leak_free].
    apply assemble_leak_free; rewrite after_open_get; apply H.
Qed.

(** X7.  One start followed by one stop, entered with every handle variable
    null, is balanced on the six variables of the teardown: no write
    replaces a handle that was not released, and the releases are exactly
    the non-null handles the start left in those variables, each once, in
    teardown order. *)
Theorem start_then_stop_balanced
    (pf : answers) (env clazz surface : ptr)
    (st : camera_status_t) (env' clazz' : ptr) (g : statics) :
  (forall x, get x g = NULL) ->
  let t := events (run [Start pf env clazz surface; Stop st env' clazz'] g) in
  leak_free [] t = true /\
  releases_of t =
    release_if_held ACaptureRequest_free
      (if early_return pf then NULL
       else assign_out (snd (ans_createCaptureRequest pf)) NULL)
    ++ release_if_held ACameraOutputTarget_free
         (assign_out (ans_outputTarget_create pf) NULL)
    ++ release_if_held ACameraDevice_close
         (if early_return pf then NULL
          else assign_out (snd (ans_openCamera pf)) NULL)
    ++ release_if_held ACaptureSessionOutput_free
         (assign_out (ans_sessionOutput_create pf) NULL)
    ++ release_if_held ACaptureSessionOutputContainer_free
         (assign_out (ans_container_create pf) NULL)
    ++ release_if_held ANativeWindow_release (ans_fromSurface pf).
Proof.
  intros H. cbv zeta. rewrite run_two_events. cbn [run_call]. split.
  - rewrite leak_free_app_no_release by apply startPreview_no_release.
    rewrite stopPreview_leak_free, andb_true_r.
    apply startPreview_leak_free_when_empty, H.
  - rewrite releases_of_app, startPreview_no_release, stopPreview_releases.
    rewrite !startPreview_get, !H. reflexivity.
Qed.

Lemma start_then_stop_balanced_witness :
  releases_of
    (events (run [Start camera_0_ok 1%N 2%N 3%N; Stop ACAMERA_OK 1%N 2%N]
               initial_statics)) =
  [ACaptureRequest_free 15%N; ACameraOutputTarget_free 16%N;
   ACameraDevice_close 14%N; ACaptureSessionOutput_free 17%N;
   ACaptureSessionOutputContainer_free 18%N; ANativeWindow_release 11%N].
Proof.
  refine (proj2 (start_then_stop_balanced camera_0_ok 1%N 2%N 3%N
                   ACAMERA_OK 1%N 2%N initial_statics _)).
  intros x; destruct x; reflexivity.
Defined.

Lemma startPreview_last_call pf env clazz surface g :
  last (calls_of (events (startPreview pf env clazz surface g)))
       ACameraManager_create =
  ACameraCaptureSession_setRepeatingRequest
    (assign_out (ans_createCaptureSession pf) (get captureSession g)) NULL 1
    [if early_return pf then get captureRequest g
     else assign_out (snd (ans_createCaptureRequest pf)) (get captureRequest g)]
    NULL.
Proof.
  rewrite startPreview_calls. unfold assemble_calls.
  rewrite !after_open_get.
  match goal with
  | |- last (?a :: ?l ++ [?c1; ?c2; ?c3; ?c4; ?c5; ?c6; ?c7]) _ = _ =>
      change [c1; c2; c3; c4; c5; c6; c7]
        with ([c1; c2; c3; c4; c5; c6] ++ [c7])
  end.
  rewrite app_comm_cons, app_assoc. apply last_last.
Qed.

Lemma run_three_events c1 c2 c3 g :
  events (run [c1; c2; c3] g) =
  events (run_call c1 g)
  ++ events (run_call c2 (final (run_call c1 g)))
  ++ events (run_call c3 (final (run_call c2 (final (run_call c1 g))))).
Proof.
  rewrite run_cons_events, run_two_events. reflexivity.
Qed.

Lemma last_app_nonempty {A} (l1 l2 : list A) (d : A) :
  l2 <> [] -> last (l1 ++ l2) d = last l2 d.
Proof.
  intros H. induction l1 as [|a l1 IH]; [reflexivity|].
  cbn [app]. rewrite <- IH.
  destruct (l1 ++ l2) eqn:E; [|reflexivity].
  apply app_eq_nil in E. destruct E as [_ E]. contradiction.
Qed.

(** X8.  A start that follows a stop still finds the session handle of the
    start before it in [captureSession]: when this time the platform stores
    no session, [ACameraCaptureSession_setRepeatingRequest], the last call
    of the run, is given that earlier handle. *)
Theorem restart_uses_previous_session
    (pf1 pf2 : answers) (env1 clazz1 surface1 : ptr)
    (st : camera_status_t) (env2 clazz2 : ptr)
    (env3 clazz3 surface3 : ptr) :
  ans_createCaptureSession pf2 = None ->
  last (calls_of (events (run [Start pf1 env1 clazz1 surface1;
                               Stop st env2 clazz2;
                               Start pf2 env3 clazz3 surface3]
                            initial_statics)))
       ACameraManager_create =
  ACameraCaptureSession_setRepeatingRequest
    (assign_out (ans_createCaptureSession pf1) NULL) NULL 1
    [if early_return pf2 then NULL
     else assign_out (snd (ans_createCaptureRequest pf2)) NULL]
    NULL.
Proof.
  intros Hnone. rewrite run_three_events. cbn [run_call].
  rewrite !calls_of_app, app_assoc.
  rewrite last_app_nonempty.
  - rewrite startPreview_last_call, Hnone. cbn [assign_out].
    rewrite !stopPreview_final. cbn [get val_captureSession val_captureRequest].
    change (val_captureSession ?g) with (get captureSession g).
    rewrite startPreview_get. reflexivity.
  - rewrite startPreview_calls. discriminate.
Qed.

Lemma restart_uses_previous_session_witness :
  last (calls_of (events (run [Start camera_0_ok 1%N 2%N 3%N;
                               Stop ACAMERA_OK 1%N 2%N;
                               Start no_camera 1%N 2%N 3%N]
                            initial_statics)))
       ACameraManager_create =
  ACameraCaptureSession_setRepeatingRequest 19%N NULL 1 [NULL] NULL.
Proof.
  exact (restart_uses_previous_session camera_0_ok no_camera
           1%N 2%N 3%N ACAMERA_OK 1%N 2%N 1%N 2%N 3%N eq_refl).
Defined.

Lemma openCamera_overwrites pf templ g :
  get cameraDevice g = NULL -> get captureRequest g = NULL ->
  Forall overwrites_at_most_session (events (openCamera pf templ g)).
Proof.
  destruct g as [win dev req tgt so' cont sess dcb scb]; cbn.
  intros Hdev Hreq; subst dev req.
  by_answers pf. open_cases st0 ids;
    [ | open_subcases st1 md st2 dv st3 rq | | ];
    cbn; repeat (apply Forall_cons || apply Forall_nil);
    first [exact I | right; reflexivity].
Qed.

Lemma assemble_overwrites pf g :
  get cameraOutputTarget g = NULL -> get sessionOutput g = NULL ->
  get captureSessionOutputContainer g = NULL ->
  Forall overwrites_at_most_session (events (assemble pf g)).
Proof.
  destruct g as [win dev req tgt so' cont sess dcb scb]; cbn.
  intros Htgt Hso Hcont; subst tgt so' cont.
  by_answers pf. destruct tg, so, ct, ss;
    cbn; repeat (apply Forall_cons || apply Forall_nil);
    first [exact I | right; reflexivity | left; reflexivity].
Qed.

(** X9.  A start entered right after a stop replaces no held handle in any
    variable but [captureSession]: every other variable it writes to is null
    at the write. *)
Theorem start_after_stop_overwrites_at_most_session
    (pf : answers) (env clazz surface : ptr)
    (st : camera_status_t) (env' clazz' : ptr) (g : statics) :
  Forall overwrites_at_most_session
    (events (startPreview pf env clazz surface
               (final (stopPreview st env' clazz' g)))).
Proof.
  rewrite stopPreview_final, startPreview_events.
  constructor; [exact I|].
  constructor; [right; reflexivity|].
  apply Forall_app. split.
  - apply openCamera_overwrites; reflexivity.
  - constructor; [exact I|].
    apply assemble_overwrites; rewrite after_open_get; reflexivity.
Qed.

(** ** The callbacks *)

Lemma run_cons_final c cs g :
  final (run (c :: cs) g) = final (run cs (final (run_call c g))).
Proof. exact (final_bind (run_call c) (fun _ => run cs) g). Qed.

Lemma set_or_kept_trans (now mid before : option callback) (cb : callback) :
  set_or_kept mid before cb -> set_or_kept now mid cb ->
  set_or_kept now before cb.
Proof. unfold set_or_kept. intros [-> | ->] [-> | ->]; auto. Qed.

(** X10.  Over any sequence of starts and stops the callback structs only
    gain entries: [onClosed] is never assigned, and each of the four other
    fields is either what it was at the beginning or the logging function of
    its own name; a stop unregisters nothing. *)
Theorem callbacks_only_registered (cs : list jni_call) (g : statics) :
  let g' := final (run cs g) in
  onClosed (captureSessionStateCallbacks g') =
    onClosed (captureSessionStateCallbacks g) /\
  set_or_kept (onReady (captureSessionStateCallbacks g'))
    (onReady (captureSessionStateCallbacks g)) capture_session_on_ready /\
  set_or_kept (onActive (captureSessionStateCallbacks g'))
    (onActive (captureSessionStateCallbacks g)) capture_session_on_active /\
  set_or_kept (onDisconnected (deviceStateCallbacks g'))
    (onDisconnected (deviceStateCallbacks g)) camera_device_on_disconnected /\
  set_or_kept (onError (deviceStateCallbacks g'))
    (onError (deviceStateCallbacks g)) camera_device_on_error.
Proof.
  cbv zeta. revert g. induction cs as [|c cs IH]; intros g.
  - cbn. unfold set_or_kept. repeat split; auto.
  - rewrite run_cons_final.
    destruct (IH (final (run_call c g))) as (Hc & Hr & Ha & Hd & He).
    assert (S : onClosed (captureSessionStateCallbacks (final (run_call c g)))
                = onClosed (captureSessionStateCallbacks g) /\
                set_or_kept
                  (onReady (captureSessionStateCallbacks (final (run_call c g))))
                  (onReady (captureSessionStateCallbacks g))
                  capture_session_on_ready /\
                set_or_kept
                  (onActive (captureSessionStateCallbacks (final (run_call c g))))
                  (onActive (captureSessionStateCallbacks g))
                  capture_session_on_active /\
                set_or_kept
                  (onDisconnected (deviceStateCallbacks (final (run_call c g))))
                  (onDisconnected (deviceStateCallbacks g))
                  camera_device_on_disconnected /\
                set_or_kept
                  (onError (deviceStateCallbacks (final (run_call c g))))
                  (onError (deviceStateCallbacks g))
                  camera_device_on_error).
    { destruct c as [pf env clazz surface | st env clazz]; cbn [run_call].
      - rewrite startPreview_session_callbacks, startPreview_device_callbacks.
        unfold set_or_kept. destruct (early_return pf); cbn; repeat split; auto.
      - rewrite stopPreview_final. unfold set_or_kept. cbn. repeat split; auto. }
    destruct S as (Sc & Sr & Sa & Sd & Se).
    split; [congruence|].
    split; [eapply set_or_kept_trans; eassumption|].
    split; [eapply set_or_kept_trans; eassumption|].
    split; eapply set_or_kept_trans; eassumption.
Qed.

(** X11.  What a start registers logs and does nothing else.  After any
    start the function in [onReady] and the one in [onActive] log one info
    line.  After a start whose opener did not return early, the function in
    [onError] asks for the id of the device it is given and logs one line at
    error severity with the error code and that id, and the function in
    [onDisconnected] asks for the id and logs one info line with it. *)
Theorem registered_callbacks_only_log
    (pf : answers) (env clazz surface : ptr) (g : statics)
    (id_of : ptr -> string) (context object : ptr) (error : Z) :
  let g' := final (startPreview pf env clazz surface g) in
  (exists cb, onReady (captureSessionStateCallbacks g') = Some cb /\
     invoke cb id_of context object error =
       [Logged ANDROID_LOG_INFO "Session is ready.\n" []]) /\
  (exists cb, onActive (captureSessionStateCallbacks g') = Some cb /\
     invoke cb id_of context object error =
       [Logged ANDROID_LOG_INFO "Session is activated.\n" []]) /\
  (early_return pf = false ->
   (exists cb, onError (deviceStateCallbacks g') = Some cb /\
      invoke cb id_of context object error =
        [Query_ACameraDevice_getId object;
         Logged ANDROID_LOG_ERROR "Error(code: %d) on Camera(id: %s).\n"
           [ArgInt error; ArgStr (id_of object)]]) /\
   (exists cb, onDisconnected (deviceStateCallbacks g') = Some cb /\
      invoke cb id_of context object error =
        [Query_ACameraDevice_getId object;
         Logged ANDROID_LOG_INFO "Camera(id: %s) is diconnected.\n"
           [ArgStr (id_of object)]])).
Proof.
  cbv zeta.
  rewrite startPreview_session_callbacks, startPreview_device_callbacks.
  split; [eexists; split; reflexivity|].
  split; [eexists; split; reflexivity|].
  intros ->. split; eexists; split; reflexivity.
Qed.

Lemma registered_callbacks_only_log_witness :
  exists cb,
    onError (deviceStateCallbacks
               (final (startPreview camera_0_ok 1%N 2%N 3%N initial_statics)))
    = Some cb /\
    invoke cb (fun _ => "0"%string) 0%N 14%N 3 =
      [Query_ACameraDevice_getId 14%N;
       Logged ANDROID_LOG_ERROR "Error(code: %d) on Camera(id: %s).\n"
         [ArgInt 3; ArgStr "0"]].
Proof.
  exact (proj1 (proj2 (proj2
    (registered_callbacks_only_log camera_0_ok 1%N 2%N 3%N initial_statics
       (fun _ => "0"%string) 0%N 14%N 3)) eq_refl)).
Defined.

(** ** The happy path *)

Lemma stores_handle_assign (o : out) (old : ptr) :
  stores_handle o = true -> assign_out o old <> NULL.
Proof.
  destruct o as [p|]; cbn; [|discriminate].
  destruct p; cbn; [discriminate|]. intros _. discriminate.
Qed.

Lemma is_null_false (p : ptr) : negb (is_null p) = true -> p <> NULL.
Proof. destruct p; cbn; [discriminate|]. intros _. discriminate. Qed.

(** X12.  When every platform call of a start succeeds and yields a non-null
    handle, no call of that start is given a null handle from a variable of
    the source, whatever the statics held before. *)
Theorem startPreview_passes_no_null_when_all_succeed
    (pf : answers) (env clazz surface : ptr) (g : statics) :
  all_succeed pf = true ->
  Forall (fun c => Forall (fun p => p <> NULL) (handle_args c))
    (calls_of (events (startPreview pf env clazz surface g))).
Proof.
  unfold all_succeed. intros H.
  repeat (apply andb_true_iff in H; let H' := fresh "H" in destruct H as [H H']).
  match goal with
  | E : negb (early_return pf) = true |- _ => apply negb_true_iff in E;
      rewrite startPreview_calls, openCamera_full_calls by exact E;
      unfold assemble_calls; rewrite !after_open_get, E
  end.
  cbv zeta. cbn [app handle_args].
  repeat (apply Forall_cons || apply Forall_nil);
    cbn [handle_args];
    repeat (apply Forall_cons || apply Forall_nil);
    first [ apply stores_handle_assign; assumption
          | apply is_null_false; assumption ].
Qed.

Lemma startPreview_passes_no_null_when_all_succeed_witness :
  Forall (fun c => Forall (fun p => p <> NULL) (handle_args c))
    (calls_of (events (startPreview camera_0_ok 1%N 2%N 3%N initial_statics))).
Proof.
  exact (startPreview_passes_no_null_when_all_succeed camera_0_ok
           1%N 2%N 3%N initial_statics eq_refl).
Defined.

(** ** Two starts in a row *)

(** X13.  A start entered while a window is held always overwrites it
    unreleased: the assignment of the window variable comes before anything
    else and nothing in a start releases. *)
Theorem startPreview_overwrites_held_window
    (pf : answers) (env clazz surface : ptr) (g : statics) :
  get theNativeWindow g <> NULL ->
  leak_free [] (events (startPreview pf env clazz surface g)) = false /\
  releases_of (events (startPreview pf env clazz surface g)) = [].
Proof.
  intros H. split; [|apply startPreview_no_release].
  rewrite startPreview_events. cbn [leak_free released existsb orb].
  destruct (get theNativeWindow g) eqn:E; [contradiction|]. reflexivity.
Qed.

Lemma startPreview_overwrites_held_window_witness :
  leak_free []
    (events (startPreview camera_0_again 1%N 2%N 3%N
               (final (startPreview camera_0_ok 1%N 2%N 3%N initial_statics))))
  = false.
Proof.
  refine (proj1 (startPreview_overwrites_held_window camera_0_again
                   1%N 2%N 3%N _ _)).
  cbn. discriminate.
Defined.





(** ** Teardown and the references between handles *)

Lemma slot_eqb_eq (x y : slot) : slot_eqb x y = true -> x = y.
Proof. destruct x, y; cbn; congruence. Qed.

Lemma links_of_call_kinded (c : call) (cr : option held_handle) :
  Forall well_kinded (links_of_call c cr).
Proof.
  destruct c; cbn; try (destruct cr as [[[] v]|]);
    try solve [repeat (apply Forall_cons || apply Forall_nil); reflexivity].
  all: apply Forall_map, Forall_forall; intros r _; reflexivity.
Qed.

Lemma stopPreview_referrers_gone st env clazz g :
  Forall referrers_gone (events (stopPreview st env clazz g)).
Proof.
  by_held_handles g; by_status st; cbn;
    repeat (apply Forall_cons || apply Forall_nil); try exact I;
    intros y Hy; destruct y; cbv in Hy |- *;
    first [discriminate Hy | auto].
Qed.

Lemma no_release_referrers_gone (t : trace) :
  releases_of t = [] -> Forall referrers_gone t.
Proof.
  induction t as [|[g e] t IH]; intros H; constructor.
  - unfold referrers_gone. destruct e as [c| |]; cbn; trivial.
    unfold releases_of in H. cbn in H. unfold is_release in H.
    destruct (released c) as [[x p]|]; [discriminate H | trivial].
  - apply IH. unfold releases_of in *.
    destruct e as [c| |]; cbn in H; trivial.
    destruct (is_release c); [discriminate H | exact H].
Qed.

Lemma run_referrers_gone cs : forall g, Forall referrers_gone (events (run cs g)).
Proof.
  induction cs as [|c cs IH]; intros g.
  - constructor.
  - rewrite run_cons_events. apply Forall_app. split; [|apply IH].
    destruct c as [pf env clazz surface | st env clazz]; cbn [run_call].
    + apply no_release_referrers_gone, startPreview_no_release.
    + apply stopPreview_referrers_gone.
Qed.

Lemma freed_while_referenced_from (t : trace) :
  forall ls,
    Forall referrers_gone t -> Forall well_kinded ls ->
    Forall from_container_or_session (freed_while_referenced ls t).
Proof.
  induction t as [|[g e] t IH]; intros ls Ht Hls; [constructor|].
  inversion Ht as [|? ? He Ht']; subst.
  destruct e as [c|sev fmt args|x v]; cbn [freed_while_referenced];
    try (apply IH; assumption).
  apply Forall_app. split.
  - unfold referrers_gone in He. cbn [snd fst] in He.
    destruct (released c) as [[x p]|]; [|constructor].
    apply Forall_forall. intros l Hl.
    apply filter_In in Hl. destruct Hl as [Hin Hb].
    apply andb_true_iff in Hb. destruct Hb as [Hheld Hsame].
    unfold same_handle in Hsame. cbn [fst snd] in Hsame.
    apply andb_true_iff in Hsame. destruct Hsame as [Hslot _].
    apply slot_eqb_eq in Hslot.
    pose proof (proj1 (Forall_forall _ _) Hls l Hin) as K.
    unfold well_kinded in K. rewrite Hslot in K.
    unfold from_container_or_session.
    destruct (He _ K) as [E | [E | E]]; [left; exact E | right; exact E |].
    unfold holds in Hheld. apply andb_true_iff in Hheld.
    destruct Hheld as [Hnn Heq]. apply N.eqb_eq in Heq.
    rewrite E in Heq. rewrite <- Heq in Hnn. discriminate Hnn.
  - apply IH; [assumption|].
    apply Forall_app. split; [assumption | apply links_of_call_kinded].
Qed.

(** C2, as amended.  [closeCamera] releases the held handles in one fixed
    order: request, output target, device, session output, container.  Over
    any run of starts and stops, with the links the calls of the run have
    made, a handle is released while the statics still hold a handle that
    refers to it only when that referrer is the container or the session;
    at every release, each other variable that can refer to the released
    one is already null. *)
Theorem teardown_order_and_references
    (st : camera_status_t) (g : statics) (cs : list jni_call) (g0 : statics) :
  releases_of (events (closeCamera st g)) =
    release_if_held ACaptureRequest_free (get captureRequest g)
    ++ release_if_held ACameraOutputTarget_free (get cameraOutputTarget g)
    ++ release_if_held ACameraDevice_close (get cameraDevice g)
    ++ release_if_held ACaptureSessionOutput_free (get sessionOutput g)
    ++ release_if_held ACaptureSessionOutputContainer_free
         (get captureSessionOutputContainer g) /\
  Forall from_container_or_session
    (freed_while_referenced [] (events (run cs g0))) /\
  Forall referrers_gone (events (run cs g0)).
Proof.
  split; [by_held_handles g; by_status st; reflexivity|].
  split; [|apply run_referrers_gone].
  apply freed_while_referenced_from; [apply run_referrers_gone | constructor].
Qed.

(** C2, as stated, fails: in the stop after a fully successful start the
    session output is freed while the container it was added to is still
    held, and request, device and container are released while the session
    created on them is still in its variable. *)
Lemma teardown_frees_referenced_handles :
  let v := freed_while_referenced []
             (events (run [Start camera_0_ok 1%N 2%N 3%N;
                           Stop ACAMERA_OK 1%N 2%N] initial_statics)) in
  v = [((captureSession, 19%N), (captureRequest, 15%N));
       ((captureSession, 19%N), (cameraDevice, 14%N));
       ((captureSessionOutputContainer, 18%N), (sessionOutput, 17%N));
       ((captureSession, 19%N), (captureSessionOutputContainer, 18%N))] /\
  v <> [].
Proof. cbv zeta. split; [vm_compute; reflexivity | vm_compute; discriminate]. Qed.
